(** * Florist CRM order list: page window, list-state controller, mock order query

    A shallow embedding of
    - [getPageNumbers]   (components/OrderPagination.tsx),
    - the [OrdersList] state handlers [loadOrders], [handleFiltersChange],
      [handlePageChange], [handlePageSizeChange], [handleStatusChange],
      [handleExecutorChange] (components/OrdersList.tsx),
    - [mockApiCall] and the [mockOrders] table (the mock data module),
    - the item label of the pagination control, the query parameters of
      [apiService.getOrders] (lib/apiService.ts), the filter form
      (components/OrderFilters.tsx), the status badge
      (components/OrderStatusBadge.tsx), and [handleRefresh] and
      [getStatusStats] of the [OrdersList] component,
    followed by the properties of the specification that concern them and
    by further properties read off the code.

    Conventions.  A JavaScript [number] that the program uses as a count, a
    page index, an identifier or a price is an integer [Z]; [null] and
    [undefined] are [None]; truthiness tests ([if (x)], [x && y], [x || y],
    [x ? a : b]) are written out with the functions of module [JS]. *)

From Equations Require Import Equations.
From stdpp Require Import base option list list_numbers strings gmap.
From Stdlib Require Import ZArith Lia Sorting.Sorted DecimalString DecimalZ.
Local Open Scope Z_scope.

(* ================================================================== *)
(** * Part I: definitions                                               *)
(* ================================================================== *)

(** ** JavaScript primitives used by the program *)

Module JS.

(** [if (n)] for a number: every integer but 0 is truthy. *)
Definition truthyNumber (n : Z) : bool := negb (n =? 0).

(** [if (s)] for a string: every string but the empty one is truthy. *)
Definition truthyString (s : string) : bool :=
  match s with EmptyString => false | String _ _ => true end.

(** [String.prototype.includes]: [sub] occurs in [s] at some offset. *)
Fixpoint includes (s sub : string) : bool :=
  String.prefix sub s ||
  match s with
  | EmptyString => false
  | String _ s' => includes s' sub
  end.

(** [Array.prototype.slice(start, end)] on integer arguments: a negative
    index counts from the end of the array, both indices are clamped to
    [0, length], and an empty range gives the empty array. *)
Definition relativeIndex (len k : Z) : Z :=
  if k <? 0 then Z.max (len + k) 0 else Z.min k len.

Definition slice {A : Type} (l : list A) (start fin : Z) : list A :=
  let len := Z.of_nat (length l) in
  let from := relativeIndex len start in
  let to := relativeIndex len fin in
  take (Z.to_nat (to - from)) (drop (Z.to_nat from) l).

(** [Array.prototype.sort(cmp)]: a stable sort.  [x] precedes the elements
    of [l] in the input, so it moves behind [y] only when [cmp x y > 0].
    (For a comparator that is not a consistent ordering ECMAScript leaves the
    order open; the result is a permutation of the input all the same.) *)
Fixpoint insertBy {A : Type} (cmp : A → A → Z) (x : A) (l : list A) : list A :=
  match l with
  | [] => [x]
  | y :: l' => if 0 <? cmp x y then y :: insertBy cmp x l' else x :: l
  end.

Definition sort {A : Type} (cmp : A → A → Z) (l : list A) : list A :=
  foldr (insertBy cmp) [] l.

(** [Array.prototype.find]: the first element that passes the test. *)
Fixpoint find {A : Type} (p : A → bool) (l : list A) : option A :=
  match l with
  | [] => None
  | x :: l' => if p x then Some x else find p l'
  end.

(** [`${n}`] for an integer. *)
Definition numberToString (n : Z) : string :=
  NilZero.string_of_int (Z.to_int n).

(** The outcome of an awaited promise. *)
Inductive Settled (A : Type) : Type :=
| Fulfilled (value : A)
| Rejected.
#[global] Arguments Fulfilled {A} value.
#[global] Arguments Rejected {A}.

End JS.

(** ** Data model (types/index.ts) *)

Record Client : Type := mkClient {
  c_id : Z;
  c_name : option string;
  c_phone : string;
  c_email : option string;
  c_address : option string;
  c_client_type : string;
  c_notes : option string;
  c_created_at : string
}.

Record User : Type := mkUser {
  u_id : Z;
  u_username : string;
  u_email : string;
  u_city : option string;
  u_position : option string
}.

(** [OrderStatus]: the four string literals of the union type. *)
Inductive OrderStatus : Type :=
| StatusNew
| StatusInProgress
| StatusReady
| StatusDelivered.

Definition statusText (s : OrderStatus) : string :=
  match s with
  | StatusNew => "новый"
  | StatusInProgress => "в работе"
  | StatusReady => "готов"
  | StatusDelivered => "доставлен"
  end.

#[global] Instance OrderStatus_eq_dec : EqDecision OrderStatus.
Proof. solve_decision. Defined.

Record Order : Type := mkOrder {
  o_id : Z;
  o_client_id : Z;
  o_recipient_id : Z;
  o_executor_id : option Z;
  o_status : OrderStatus;
  o_delivery_date : string;
  o_delivery_address : string;
  o_total_price : option Z;
  o_comment : option string;
  o_created_at : string;
  o_client : Client;
  o_recipient : Client;
  o_executor : option User
}.

Record OrderListResponse : Type := mkResponse {
  r_orders : list Order;
  r_total : Z;
  r_page : Z;
  r_page_size : Z
}.

(** [OrderFilters]: every field is optional. *)
Record OrderFilters : Type := mkFilters {
  f_status : option OrderStatus;
  f_client_phone : option string;
  f_executor_id : option Z;
  f_date_from : option string;
  f_date_to : option string;
  f_min_price : option Z;
  f_max_price : option Z
}.

Definition noFilters : OrderFilters :=
  mkFilters None None None None None None None.

Record Pagination : Type := mkPagination {
  page : Z;
  page_size : Z;
  total : Z
}.

Record OrderListState : Type := mkState {
  orders : list Order;
  loading : bool;
  error : option string;
  filters : OrderFilters;
  pagination : Pagination
}.

(** ** Page window calculator (OrderPagination.tsx) *)

Module PageWindow.

(** An entry of [(number | string)[]]. *)
Inductive PageItem : Type :=
| PageNumber (n : Z)
| PageText (s : string).

Definition ellipsis : PageItem := PageText "...".

(** [for (let i = lo; i <= hi; i++) pages.push(i)], returning [pages]. *)
Equations? pushRange (i hi : Z) (pages : list PageItem) : list PageItem
  by wf (Z.to_nat (hi + 1 - i)) lt :=
  pushRange i hi pages with decide (i ≤ hi) := {
    | left _ => pushRange (i + 1) hi (pages ++ [PageNumber i]);
    | right _ => pages }.
Proof. lia. Qed.

Definition maxVisible : Z := 5.

Definition getPageNumbers (currentPage totalPages : Z) : list PageItem :=
  let pages : list PageItem := [] in
  if totalPages <=? maxVisible then
    pushRange 1 totalPages pages
  else if currentPage <=? 3 then
    let pages := pushRange 1 4 pages in
    let pages := pages ++ [ellipsis] in
    pages ++ [PageNumber totalPages]
  else if currentPage >=? totalPages - 2 then
    let pages := pages ++ [PageNumber 1] in
    let pages := pages ++ [ellipsis] in
    pushRange (totalPages - 3) totalPages pages
  else
    let pages := pages ++ [PageNumber 1] in
    let pages := pages ++ [ellipsis] in
    let pages := pushRange (currentPage - 1) (currentPage + 1) pages in
    let pages := pages ++ [ellipsis] in
    pages ++ [PageNumber totalPages].

(** The concrete page numbers of a window, in display order. *)
Definition concretePages (items : list PageItem) : list Z :=
  omap (λ it, match it with PageNumber n => Some n | PageText _ => None end) items.

(** The page arguments the rendered control can hand to [onPageChange]:
    the whole navigation is rendered only when [totalPages > 1]; every
    button is disabled while [loading]; "previous" ([currentPage - 1]) is
    disabled on page 1, "next" ([currentPage + 1]) on the last page; a
    window entry is clickable only when it is a number. *)
Definition clickablePages (currentPage totalPages : Z) (isLoading : bool) : list Z :=
  if negb (1 <? totalPages) || isLoading then []
  else
    (if currentPage =? 1 then [] else [currentPage - 1])
    ++ concretePages (getPageNumbers currentPage totalPages)
    ++ (if currentPage =? totalPages then [] else [currentPage + 1]).

(** The window as the specification words it, by cases on [T] and [C]. *)
Definition pageWindowSpec (C T : Z) : list PageItem :=
  if decide (T ≤ 5) then PageNumber <$> seqZ 1 T
  else if decide (C ≤ 3) then
    [PageNumber 1; PageNumber 2; PageNumber 3; PageNumber 4; ellipsis; PageNumber T]
  else if decide (T - 2 ≤ C) then
    [PageNumber 1; ellipsis; PageNumber (T - 3); PageNumber (T - 2);
     PageNumber (T - 1); PageNumber T]
  else
    [PageNumber 1; ellipsis; PageNumber (C - 1); PageNumber C; PageNumber (C + 1);
     ellipsis; PageNumber T].

End PageWindow.

(** ** Mock order query (mock data module) *)

Module MockApi.

(** [if (filters.x)] on an optional field: the value when it is present
    and truthy. *)
Definition truthyField {A : Type} (truthy : A → bool) (field : option A) : option A :=
  match field with
  | Some v => if truthy v then Some v else None
  | None => None
  end.

(** [order.total_price && cmp(order.total_price)] as a filter verdict:
    [null] and [0] are falsy, otherwise the comparison decides. *)
Definition priceAnd (price : option Z) (test : Z → bool) : bool :=
  match price with
  | Some p => JS.truthyNumber p && test p
  | None => false
  end.

Section WithDate.

(** [new Date(s).getTime()]: the time value of a date string in
    milliseconds, [None] for an invalid date (NaN). *)
Variable getTime : string → option Z.

(** [new Date(a) >= new Date(b)]; a comparison with NaN is false. *)
Definition dateGe (a b : string) : bool :=
  match getTime a, getTime b with
  | Some ta, Some tb => tb <=? ta
  | _, _ => false
  end.

(** [new Date(a) <= new Date(b)]. *)
Definition dateLe (a b : string) : bool :=
  match getTime a, getTime b with
  | Some ta, Some tb => ta <=? tb
  | _, _ => false
  end.

(** [(a, b) => new Date(b.created_at).getTime() - new Date(a.created_at).getTime()];
    [sort] reads a NaN verdict as 0. *)
Definition byCreatedDesc (a b : Order) : Z :=
  match getTime (o_created_at b), getTime (o_created_at a) with
  | Some tb, Some ta => tb - ta
  | _, _ => 0
  end.

(** The chain of [if (filters.x) filteredOrders = filteredOrders.filter(...)]. *)
Definition applyFilters (data : list Order) (filters : OrderFilters) : list Order :=
  let filteredOrders := data in
  let filteredOrders :=
    match truthyField (λ s, JS.truthyString (statusText s)) (f_status filters) with
    | Some status =>
        List.filter (λ order, bool_decide (o_status order = status)) filteredOrders
    | None => filteredOrders
    end in
  let filteredOrders :=
    match truthyField JS.truthyString (f_client_phone filters) with
    | Some phone =>
        List.filter (λ order,
          JS.includes (c_phone (o_client order)) phone ||
          JS.includes (c_phone (o_recipient order)) phone) filteredOrders
    | None => filteredOrders
    end in
  let filteredOrders :=
    match truthyField JS.truthyNumber (f_executor_id filters) with
    | Some executor =>
        List.filter (λ order, bool_decide (o_executor_id order = Some executor))
          filteredOrders
    | None => filteredOrders
    end in
  let filteredOrders :=
    match truthyField JS.truthyString (f_date_from filters) with
    | Some date_from =>
        List.filter (λ order, dateGe (o_delivery_date order) date_from) filteredOrders
    | None => filteredOrders
    end in
  let filteredOrders :=
    match truthyField JS.truthyString (f_date_to filters) with
    | Some date_to =>
        List.filter (λ order, dateLe (o_delivery_date order) date_to) filteredOrders
    | None => filteredOrders
    end in
  let filteredOrders :=
    match truthyField JS.truthyNumber (f_min_price filters) with
    | Some min_price =>
        List.filter (λ order, priceAnd (o_total_price order) (λ p, min_price <=? p))
          filteredOrders
    | None => filteredOrders
    end in
  let filteredOrders :=
    match truthyField JS.truthyNumber (f_max_price filters) with
    | Some max_price =>
        List.filter (λ order, priceAnd (o_total_price order) (λ p, p <=? max_price))
          filteredOrders
    | None => filteredOrders
    end in
  filteredOrders.

(** [mockApiCall] over an arbitrary record table [data] (the source reads
    the module constant [mockOrders]); the simulated network delay is not
    modelled. *)
Definition mockApiCallOn (data : list Order) (filters : OrderFilters)
    (page pageSize : Z) : OrderListResponse :=
  let filteredOrders := applyFilters data filters in
  let filteredOrders := JS.sort byCreatedDesc filteredOrders in
  let startIndex := (page - 1) * pageSize in
  let endIndex := startIndex + pageSize in
  let paginatedOrders := JS.slice filteredOrders startIndex endIndex in
  {| r_orders := paginatedOrders;
     r_total := Z.of_nat (length filteredOrders);
     r_page := page;
     r_page_size := pageSize |}.

End WithDate.

(** The mock tables. *)
Definition mockClients : list Client :=
  [ mkClient 1 (Some "Анна Петрова") "+77012345678" (Some "anna@example.com")
      (Some "ул. Абая 150, кв. 25") "заказчик" None "2024-01-15T10:30:00Z";
    mkClient 2 (Some "Мария Иванова") "+77087654321" (Some "maria@example.com")
      (Some "пр. Достык 240, офис 15") "получатель" None "2024-01-20T14:15:00Z";
    mkClient 3 (Some "Елена Смирнова") "+77051234567" None
      (Some "ул. Назарбаева 75") "оба" (Some "Постоянный клиент")
      "2024-02-01T09:00:00Z" ].

Definition mockUsers : list User :=
  [ mkUser 1 "aidana_flores" "aidana@flores.kz" (Some "Алматы") (Some "Флорист");
    mkUser 2 "dmitry_manager" "dmitry@flores.kz" (Some "Алматы") (Some "Менеджер");
    mkUser 3 "sara_astana" "sara@flores.kz" (Some "Астана") (Some "Флорист") ].

Definition noClient : Client := mkClient 0 None "" None None "" None "".

Definition client (i : nat) : Client := default noClient (mockClients !! i).

Definition mockOrders : list Order :=
  [ mkOrder 1 1 2 (Some 1) StatusNew "2024-12-25T00:00:00Z"
      "пр. Достык 240, офис 15" (Some 15000) (Some "Букет из роз и лилий")
      "2024-12-20T10:30:00Z" (client 0) (client 1) (mockUsers !! 0%nat);
    mkOrder 2 2 3 None StatusInProgress "2024-12-26T00:00:00Z"
      "ул. Назарбаева 75" (Some 25000) None
      "2024-12-19T15:45:00Z" (client 1) (client 2) None;
    mkOrder 3 3 3 (Some 2) StatusReady "2024-12-24T00:00:00Z"
      "ул. Назарбаева 75" (Some 8000) (Some "Небольшая композиция")
      "2024-12-18T12:00:00Z" (client 2) (client 2) (mockUsers !! 1%nat);
    mkOrder 4 1 1 (Some 3) StatusDelivered "2024-12-23T00:00:00Z"
      "ул. Абая 150, кв. 25" (Some 12000) (Some "Букет на день рождения")
      "2024-12-17T09:15:00Z" (client 0) (client 0) (mockUsers !! 2%nat) ].

Definition mockApiCall (getTime : string → option Z) :
    OrderFilters → Z → Z → OrderListResponse :=
  mockApiCallOn getTime mockOrders.

(** A time-value function for running the mock on its own table: it reads
    the two date formats that occur there and in the date inputs,
    [YYYY-MM-DD] and [YYYY-MM-DDTHH:MM:SSZ] (UTC), and is [None] elsewhere. *)
Definition digitValue (c : Ascii.ascii) : option Z :=
  let n := Z.of_nat (Ascii.nat_of_ascii c) in
  if (48 <=? n) && (n <=? 57) then Some (n - 48) else None.

Fixpoint digitsValue (acc : Z) (s : string) : option Z :=
  match s with
  | EmptyString => Some acc
  | String c s' =>
      match digitValue c with
      | Some d => digitsValue (10 * acc + d) s'
      | None => None
      end
  end.

Definition field (s : string) (from len : nat) : option Z :=
  let part := String.substring from len s in
  if (String.length part =? len)%nat then digitsValue 0 part else None.

Definition daysFromCivil (y m d : Z) : Z :=
  let y := if m <=? 2 then y - 1 else y in
  let era := y / 400 in
  let yoe := y - era * 400 in
  let doy := (153 * (if 2 <? m then m - 3 else m + 9) + 2) / 5 + d - 1 in
  let doe := yoe * 365 + yoe / 4 - yoe / 100 + doy in
  era * 146097 + doe - 719468.

Definition isoTime (s : string) : option Z :=
  y ← field s 0 4; m ← field s 5 2; d ← field s 8 2;
  if negb ((1 <=? m) && (m <=? 12) && (1 <=? d) && (d <=? 31)) then None
  else
    let day := daysFromCivil y m d in
    if (String.length s =? 10)%nat then
      if String.eqb (String.substring 4 1 s ++ String.substring 7 1 s) "--"
      then Some (day * 86400000) else None
    else if (String.length s =? 20)%nat then
      hh ← field s 11 2; mm ← field s 14 2; ss ← field s 17 2;
      if String.eqb (String.substring 4 1 s ++ String.substring 7 1 s ++
                     String.substring 10 1 s ++ String.substring 13 1 s ++
                     String.substring 16 1 s ++ String.substring 19 1 s) "--T::Z"
         && (hh <=? 23) && (mm <=? 59) && (ss <=? 59)
      then Some (((day * 24 + hh) * 60 + mm) * 60000 + ss * 1000) else None
    else None.

End MockApi.

(** ** List-state controller (OrdersList component) *)

Module OrdersList.

Import JS.

(** What the component does to the outside world, in program order. *)
Inductive Event : Type :=
| ApiGetOrders (f : OrderFilters) (pageArg pageSizeArg : Z)
| ApiUpdateOrderStatus (orderId : Z) (status : OrderStatus)
| ApiUpdateOrderExecutor (orderId : Z) (executorId : option Z)
| ToastError (msg : string)
| ToastSuccess (msg : string).

(** The [apiService] singleton: what each awaited request settles to.
    A rejection covers a transport failure, a non-success status and a
    malformed body alike ([request] rethrows all three). *)
Record ApiService : Type := mkApi {
  getOrders : OrderFilters → Z → Z → Settled OrderListResponse;
  updateOrderStatus : Z → OrderStatus → Settled Order;
  updateOrderExecutor : Z → option Z → Settled Order
}.

(** The world a handler runs in: the React state cell and the event log. *)
Record World : Type := mkWorld {
  store : OrderListState;
  log : list Event
}.

(** Handlers are state transformers over [World]. *)
Definition Cmd (A : Type) : Type := World → A * World.

#[global] Instance Cmd_ret : MRet Cmd := λ A a w, (a, w).
#[global] Instance Cmd_bind : MBind Cmd :=
  λ A B k c w, let '(a, w') := c w in k a w'.

(** [setState(prev => upd(prev))]. *)
Definition setState (upd : OrderListState → OrderListState) : Cmd unit :=
  λ w, (tt, {| store := upd (store w); log := log w |}).

Definition emit (e : Event) : Cmd unit :=
  λ w, (tt, {| store := store w; log := log w ++ [e] |}).

Definition toastError (msg : string) : Cmd unit := emit (ToastError msg).
Definition toastSuccess (msg : string) : Cmd unit := emit (ToastSuccess msg).

(** Run a handler on a state with an empty log. *)
Definition run {A : Type} (c : Cmd A) (st : OrderListState) : World :=
  snd (c {| store := st; log := [] |}).

(** Object spreads [{ ...order, field: v }]. *)
Definition withStatus (order : Order) (newStatus : OrderStatus) : Order :=
  mkOrder (o_id order) (o_client_id order) (o_recipient_id order)
    (o_executor_id order) newStatus (o_delivery_date order)
    (o_delivery_address order) (o_total_price order) (o_comment order)
    (o_created_at order) (o_client order) (o_recipient order) (o_executor order).

Definition withExecutor (order : Order) (executorId : option Z)
    (executor : option User) : Order :=
  mkOrder (o_id order) (o_client_id order) (o_recipient_id order)
    executorId (o_status order) (o_delivery_date order)
    (o_delivery_address order) (o_total_price order) (o_comment order)
    (o_created_at order) (o_client order) (o_recipient order) executor.

Definition dquote : string := String (Ascii.ascii_of_nat 34) EmptyString.

(** [Math.ceil(state.pagination.total / state.pagination.page_size)];
    [None] when the quotient is not a finite number (division by 0). *)
Definition totalPages (st : OrderListState) : option Z :=
  let t := total (pagination st) in
  let s := page_size (pagination st) in
  if s =? 0 then None else Some (- ((- t) / s)).

(** [executorId ? users.find(u => u.id === executorId) || null : null]. *)
Definition executorOf (users : list User) (executorId : option Z) : option User :=
  match MockApi.truthyField truthyNumber executorId with
  | Some uid => JS.find (λ u, u_id u =? uid) users
  | None => None
  end.

Section WithApi.

Variable api : ApiService.

(** [await apiService.getOrders(...)] and its siblings: the request is
    logged and the settled outcome handed to the continuation. *)
Definition awaitGetOrders (f : OrderFilters) (p ps : Z) : Cmd (Settled OrderListResponse) :=
  emit (ApiGetOrders f p ps);; mret (getOrders api f p ps).

Definition awaitUpdateOrderStatus (orderId : Z) (s : OrderStatus) : Cmd (Settled Order) :=
  emit (ApiUpdateOrderStatus orderId s);; mret (updateOrderStatus api orderId s).

Definition awaitUpdateOrderExecutor (orderId : Z) (e : option Z) : Cmd (Settled Order) :=
  emit (ApiUpdateOrderExecutor orderId e);; mret (updateOrderExecutor api orderId e).

(** [loadOrders(filters, page, pageSize)]; the callers below pass all
    three arguments. *)
Definition loadOrders (filtersArg : OrderFilters) (pageArg pageSizeArg : Z) : Cmd unit :=
  setState (λ prev,
    {| orders := orders prev; loading := true; error := None;
       filters := filters prev; pagination := pagination prev |});;
  response ← awaitGetOrders filtersArg pageArg pageSizeArg;
  match response with
  | Fulfilled response =>
      setState (λ prev,
        {| orders := r_orders response;
           loading := false;
           error := error prev;
           filters := filters prev;
           pagination := {| page := r_page response;
                            page_size := r_page_size response;
                            total := r_total response |} |})
  | Rejected =>
      setState (λ prev,
        {| orders := orders prev; loading := false;
           error := Some "Ошибка загрузки заказов";
           filters := filters prev; pagination := pagination prev |});;
      toastError "Не удалось загрузить заказы"
  end.

(** The handlers close over [state], the snapshot of the render that
    created them; [setState] updaters read the state cell itself. *)
Definition handleFiltersChange (state : OrderListState) (newFilters : OrderFilters) : Cmd unit :=
  setState (λ prev,
    {| orders := orders prev; loading := loading prev; error := error prev;
       filters := newFilters;
       pagination := {| page := 1;
                        page_size := page_size (pagination prev);
                        total := total (pagination prev) |} |});;
  loadOrders newFilters 1 (page_size (pagination state)).

Definition handlePageChange (state : OrderListState) (pageArg : Z) : Cmd unit :=
  loadOrders (filters state) pageArg (page_size (pagination state)).

Definition handlePageSizeChange (state : OrderListState) (pageSizeArg : Z) : Cmd unit :=
  loadOrders (filters state) 1 pageSizeArg.

Definition handleStatusChange (orderId : Z) (newStatus : OrderStatus) : Cmd unit :=
  outcome ← awaitUpdateOrderStatus orderId newStatus;
  match outcome with
  | Fulfilled _ =>
      setState (λ prev,
        {| orders := (λ order,
                       if o_id order =? orderId then withStatus order newStatus
                       else order) <$> orders prev;
           loading := loading prev; error := error prev;
           filters := filters prev; pagination := pagination prev |});;
      toastSuccess ("Статус заказа #" +:+ numberToString orderId +:+ " изменен на "
                    +:+ dquote +:+ statusText newStatus +:+ dquote)
  | Rejected => toastError "Не удалось изменить статус заказа"
  end.

Definition handleExecutorChange (users : list User) (orderId : Z)
    (executorId : option Z) : Cmd unit :=
  outcome ← awaitUpdateOrderExecutor orderId executorId;
  match outcome with
  | Fulfilled _ =>
      let executor := executorOf users executorId in
      setState (λ prev,
        {| orders := (λ order,
                       if o_id order =? orderId
                       then withExecutor order executorId executor
                       else order) <$> orders prev;
           loading := loading prev; error := error prev;
           filters := filters prev; pagination := pagination prev |});;
      let message :=
        if from_option truthyNumber false executorId
        then "Исполнитель назначен для заказа #" +:+ numberToString orderId
        else "Исполнитель убран с заказа #" +:+ numberToString orderId in
      toastSuccess message
  | Rejected => toastError "Не удалось изменить исполнителя"
  end.

End WithApi.

(** The state [useState] starts from. *)
Definition initialState : OrderListState :=
  {| orders := []; loading := true; error := None; filters := noFilters;
     pagination := {| page := 1; page_size := 20; total := 0 |} |}.

End OrdersList.

(** ** Reference predicates of the specification *)

Module Reference.

(** [sub] is a substring of [s]. *)
Definition Substring (sub s : string) : Prop :=
  ∃ pre post : string, s = pre +:+ sub +:+ post.

(** The inclusive price range as the specification words it: the order
    has a price [p] with [lo <= p <= hi]. *)
Definition priceBetween (lo hi : Z) (o : Order) : Prop :=
  match o_total_price o with
  | Some p => lo ≤ p ≤ hi
  | None => False
  end.

(** The range the code implements: the price is moreover not 0. *)
Definition priceWithin (lo hi : Z) (o : Order) : Prop :=
  match o_total_price o with
  | Some p => p ≠ 0 ∧ lo ≤ p ≤ hi
  | None => False
  end.

#[global] Instance priceBetween_dec lo hi o : Decision (priceBetween lo hi o).
Proof. unfold priceBetween. destruct (o_total_price o); apply _. Defined.

#[global] Instance priceWithin_dec lo hi o : Decision (priceWithin lo hi o).
Proof. unfold priceWithin. destruct (o_total_price o); apply _. Defined.

(** A constraint on an optional filter field: absent (or falsy) means
    unconstrained. *)
Definition constrained {A : Type} (field : option A) (test : A → bool) : bool :=
  from_option test true field.

(** All constraints of a filter, combined with AND. *)
Definition passes (getTime : string → option Z) (f : OrderFilters) (o : Order) : bool :=
  constrained (MockApi.truthyField (λ s, JS.truthyString (statusText s)) (f_status f))
    (λ status, bool_decide (o_status o = status))
  && constrained (MockApi.truthyField JS.truthyString (f_client_phone f))
       (λ phone, JS.includes (c_phone (o_client o)) phone ||
                 JS.includes (c_phone (o_recipient o)) phone)
  && constrained (MockApi.truthyField JS.truthyNumber (f_executor_id f))
       (λ executor, bool_decide (o_executor_id o = Some executor))
  && constrained (MockApi.truthyField JS.truthyString (f_date_from f))
       (λ date_from, MockApi.dateGe getTime (o_delivery_date o) date_from)
  && constrained (MockApi.truthyField JS.truthyString (f_date_to f))
       (λ date_to, MockApi.dateLe getTime (o_delivery_date o) date_to)
  && constrained (MockApi.truthyField JS.truthyNumber (f_min_price f))
       (λ min_price, MockApi.priceAnd (o_total_price o) (λ p, min_price <=? p))
  && constrained (MockApi.truthyField JS.truthyNumber (f_max_price f))
       (λ max_price, MockApi.priceAnd (o_total_price o) (λ p, p <=? max_price)).

(** A filter that constrains the price only. *)
Definition priceFilter (lo hi : Z) : OrderFilters :=
  mkFilters None None None None None (Some lo) (Some hi).

(** A filter that constrains the phone only. *)
Definition phoneFilter (s : string) : OrderFilters :=
  mkFilters None (Some s) None None None None None.

(** The records agree on every field but [status]. *)
Definition sameExceptStatus (o o' : Order) : Prop :=
  o_id o' = o_id o ∧ o_client_id o' = o_client_id o
  ∧ o_recipient_id o' = o_recipient_id o ∧ o_executor_id o' = o_executor_id o
  ∧ o_delivery_date o' = o_delivery_date o
  ∧ o_delivery_address o' = o_delivery_address o
  ∧ o_total_price o' = o_total_price o ∧ o_comment o' = o_comment o
  ∧ o_created_at o' = o_created_at o ∧ o_client o' = o_client o
  ∧ o_recipient o' = o_recipient o ∧ o_executor o' = o_executor o.

(** The records agree on every field but the executor reference, which
    the record carries as [executor_id] and as the joined [executor]. *)
Definition sameExceptExecutor (o o' : Order) : Prop :=
  o_id o' = o_id o ∧ o_client_id o' = o_client_id o
  ∧ o_recipient_id o' = o_recipient_id o ∧ o_status o' = o_status o
  ∧ o_delivery_date o' = o_delivery_date o
  ∧ o_delivery_address o' = o_delivery_address o
  ∧ o_total_price o' = o_total_price o ∧ o_comment o' = o_comment o
  ∧ o_created_at o' = o_created_at o ∧ o_client o' = o_client o
  ∧ o_recipient o' = o_recipient o.

(** Everything in the controller state but the cached records is as
    before. *)
Definition onlyOrdersChange (st st' : OrderListState) : Prop :=
  loading st' = loading st ∧ error st' = error st
  ∧ filters st' = filters st ∧ pagination st' = pagination st.

(** [after] is [before] position by position, where a record with another
    id than [target] is untouched and a record with that id became
    [edit] of itself. *)
Definition pointwiseEdit (target : Z) (edit : Order → Order)
    (before after : list Order) : Prop :=
  length after = length before
  ∧ ∀ (i : nat) (o : Order), before !! i = Some o →
      after !! i = Some (if decide (o_id o = target) then edit o else o).

(** One position of the list holds the record with id [target], and
    [after] is [before] with that position overwritten. *)
Definition singleEdit (target : Z) (edit : Order → Order)
    (before after : list Order) : Prop :=
  ∃ (i : nat) (o : Order),
    before !! i = Some o ∧ o_id o = target ∧ after = <[i := edit o]> before.

(** No list reload was requested. *)
Definition noReload (events : list OrdersList.Event) : Prop :=
  ∀ f p ps, OrdersList.ApiGetOrders f p ps ∉ events.

End Reference.

(** ** Sample records for the worked scenarios *)

Module Fixtures.

Import MockApi.

(** A complimentary order: its price is 0. *)
Definition freeOrder : Order :=
  mkOrder 5 1 1 None StatusNew "2024-12-27T00:00:00Z" "ул. Абая 150, кв. 25"
    (Some 0) None "2024-12-21T08:00:00Z" (client 0) (client 0) None.

(** An order that has no price yet. *)
Definition unpricedOrder : Order :=
  mkOrder 6 2 2 None StatusNew "2024-12-28T00:00:00Z" "пр. Достык 240, офис 15"
    None None "2024-12-21T09:00:00Z" (client 1) (client 1) None.

(** A collaborator that answers from the mock table. *)
Definition mockService : OrdersList.ApiService :=
  OrdersList.mkApi
    (λ f p ps, JS.Fulfilled (mockApiCall isoTime f p ps))
    (λ orderId s,
       match JS.find (λ o, o_id o =? orderId) mockOrders with
       | Some o => JS.Fulfilled (OrdersList.withStatus o s)
       | None => JS.Rejected
       end)
    (λ orderId e,
       match JS.find (λ o, o_id o =? orderId) mockOrders with
       | Some o => JS.Fulfilled (OrdersList.withExecutor o e None)
       | None => JS.Rejected
       end).

(** A collaborator that cannot be reached. *)
Definition offlineService : OrdersList.ApiService :=
  OrdersList.mkApi (λ _ _ _, JS.Rejected) (λ _ _, JS.Rejected) (λ _ _, JS.Rejected).

(** The mock table with every order still "новый". *)
Definition cachedNew : list Order :=
  (λ o, OrdersList.withStatus o StatusNew) <$> mockOrders.

Definition stateNew : OrderListState :=
  {| orders := cachedNew; loading := false; error := None; filters := noFilters;
     pagination := {| page := 1; page_size := 20; total := 4 |} |}.

(** 47 matching orders, 20 to a page: three pages. *)
Definition state47 : OrderListState :=
  {| orders := mockOrders; loading := false; error := None; filters := noFilters;
     pagination := {| page := 1; page_size := 20; total := 47 |} |}.

(** The same list, showing its third page. *)
Definition statePage3 : OrderListState :=
  {| orders := mockOrders; loading := false; error := None; filters := noFilters;
     pagination := {| page := 3; page_size := 20; total := 47 |} |}.

End Fixtures.

(** ** The rest of the pagination control (OrderPagination.tsx) *)

Module PageLabel.

(** [Math.min((currentPage - 1) * pageSize + 1, totalItems)]. *)
Definition startItem (currentPage pageSize totalItems : Z) : Z :=
  Z.min ((currentPage - 1) * pageSize + 1) totalItems.

(** [Math.min(currentPage * pageSize, totalItems)]. *)
Definition endItem (currentPage pageSize totalItems : Z) : Z :=
  Z.min (currentPage * pageSize) totalItems.

End PageLabel.

(** ** The query parameters of [apiService.getOrders] (lib/apiService.ts) *)

Module ApiClient.

Import JS MockApi.

(** The [URLSearchParams] of the search request, as the list of appended
    name/value pairs; the percent-encoding of [toString] and the [fetch]
    itself are not modelled. *)
Definition getOrdersParams (filters : OrderFilters) (pageArg pageSize : Z) :
    list (string * string) :=
  let params : list (string * string) := [] in
  let params := params ++ [("page", numberToString pageArg)] in
  let params := params ++ [("page_size", numberToString pageSize)] in
  let params :=
    match truthyField (λ s, truthyString (statusText s)) (f_status filters) with
    | Some status => params ++ [("status", statusText status)]
    | None => params
    end in
  let params :=
    match truthyField truthyString (f_client_phone filters) with
    | Some phone => params ++ [("client_phone", phone)]
    | None => params
    end in
  let params :=
    match truthyField truthyNumber (f_executor_id filters) with
    | Some executor => params ++ [("executor_id", numberToString executor)]
    | None => params
    end in
  let params :=
    match truthyField truthyString (f_date_from filters) with
    | Some date_from => params ++ [("date_from", date_from)]
    | None => params
    end in
  let params :=
    match truthyField truthyString (f_date_to filters) with
    | Some date_to => params ++ [("date_to", date_to)]
    | None => params
    end in
  let params :=
    match truthyField truthyNumber (f_min_price filters) with
    | Some min_price => params ++ [("min_price", numberToString min_price)]
    | None => params
    end in
  let params :=
    match truthyField truthyNumber (f_max_price filters) with
    | Some max_price => params ++ [("max_price", numberToString max_price)]
    | None => params
    end in
  params.

End ApiClient.

(** ** The filter form (OrderFilters.tsx) *)

Module FilterForm.

Import JS MockApi.

(** A call [handleFilterChange(key, value)] as the inputs of the form make
    it: the key, and the value with the type that input passes.  A text or
    date input passes its string; the selects pass [null] for "all" and the
    number inputs pass [null] for an empty box; [parseInt] yields a number
    or NaN, which is [None] here like [null] (both are falsy). *)
Inductive FilterChange : Type :=
| ChangeClientPhone (value : string)
| ChangeStatus (value : option OrderStatus)
| ChangeExecutorId (value : option Z)
| ChangeDateFrom (value : string)
| ChangeDateTo (value : string)
| ChangeMinPrice (value : option Z)
| ChangeMaxPrice (value : option Z).

(** [setLocalFilters(prev => ({ ...prev, [key]: value || undefined }))]. *)
Definition handleFilterChange (prev : OrderFilters) (c : FilterChange) : OrderFilters :=
  match c with
  | ChangeClientPhone value =>
      mkFilters (f_status prev) (truthyField truthyString (Some value))
        (f_executor_id prev) (f_date_from prev) (f_date_to prev)
        (f_min_price prev) (f_max_price prev)
  | ChangeStatus value =>
      mkFilters (truthyField (λ s, truthyString (statusText s)) value)
        (f_client_phone prev) (f_executor_id prev) (f_date_from prev)
        (f_date_to prev) (f_min_price prev) (f_max_price prev)
  | ChangeExecutorId value =>
      mkFilters (f_status prev) (f_client_phone prev)
        (truthyField truthyNumber value) (f_date_from prev) (f_date_to prev)
        (f_min_price prev) (f_max_price prev)
  | ChangeDateFrom value =>
      mkFilters (f_status prev) (f_client_phone prev) (f_executor_id prev)
        (truthyField truthyString (Some value)) (f_date_to prev)
        (f_min_price prev) (f_max_price prev)
  | ChangeDateTo value =>
      mkFilters (f_status prev) (f_client_phone prev) (f_executor_id prev)
        (f_date_from prev) (truthyField truthyString (Some value))
        (f_min_price prev) (f_max_price prev)
  | ChangeMinPrice value =>
      mkFilters (f_status prev) (f_client_phone prev) (f_executor_id prev)
        (f_date_from prev) (f_date_to prev)
        (truthyField truthyNumber value) (f_max_price prev)
  | ChangeMaxPrice value =>
      mkFilters (f_status prev) (f_client_phone prev) (f_executor_id prev)
        (f_date_from prev) (f_date_to prev)
        (f_min_price prev) (truthyField truthyNumber value)
  end.

(** What the user does with the form. *)
Inductive FormAction : Type :=
| Change (c : FilterChange)
| Search
| Reset.

(** One action: the new [localFilters] and the filters handed to
    [onFiltersChange], if the action calls it.  [handleSearch] passes
    [localFilters]; [handleReset] empties them and passes the empty
    filters. *)
Definition formStep (localFilters : OrderFilters) (a : FormAction) :
    OrderFilters * option OrderFilters :=
  match a with
  | Change c => (handleFilterChange localFilters c, None)
  | Search => (localFilters, Some localFilters)
  | Reset => (noFilters, Some noFilters)
  end.

(** A session with the form: the final [localFilters] and the filters
    submitted on the way, oldest first. *)
Fixpoint formRun (localFilters : OrderFilters) (actions : list FormAction) :
    OrderFilters * list OrderFilters :=
  match actions with
  | [] => (localFilters, [])
  | a :: rest =>
      let '(next, submitted) := formStep localFilters a in
      let '(final, later) := formRun next rest in
      (final, from_option (λ f, [f]) [] submitted ++ later)
  end.

End FilterForm.

(** ** The status badge (OrderStatusBadge.tsx) *)

Module StatusBadge.

Definition statusOrder : list OrderStatus :=
  [StatusNew; StatusInProgress; StatusReady; StatusDelivered].

(** [Array.prototype.indexOf]: the first index of [x], or -1. *)
Fixpoint indexOf (l : list OrderStatus) (x : OrderStatus) : Z :=
  match l with
  | [] => -1
  | y :: l' =>
      if bool_decide (y = x) then 0
      else let i := indexOf l' x in if i <? 0 then -1 else i + 1
  end.

(** [l[i]] for an integer index: [undefined] outside the array. *)
Definition at_index {A : Type} (l : list A) (i : Z) : option A :=
  if i <? 0 then None else l !! Z.to_nat i.

(** [handleClick]: [None] when the click is ignored, otherwise the argument
    [onChange] is called with. *)
Definition handleClick (editable hasOnChange : bool) (status : OrderStatus) :
    option (option OrderStatus) :=
  if negb editable || negb hasOnChange then None
  else
    let currentIndex := indexOf statusOrder status in
    let nextIndex := Z.rem (currentIndex + 1) (Z.of_nat (length statusOrder)) in
    Some (at_index statusOrder nextIndex).

End StatusBadge.

(** ** The rest of the controller (OrdersList component) *)

Module OrdersListMore.

Import JS OrdersList.

Section WithApi.

Variable api : ApiService.

(** [loadOrders] up to its [await]: the loading flag is raised, the old
    error dropped and the request sent. *)
Definition loadOrdersBegin (filtersArg : OrderFilters) (pageArg pageSizeArg : Z) :
    Cmd (Settled OrderListResponse) :=
  setState (λ prev,
    {| orders := orders prev; loading := true; error := None;
       filters := filters prev; pagination := pagination prev |});;
  awaitGetOrders api filtersArg pageArg pageSizeArg.

(** [loadOrders] from its [await] on, once the request has settled. *)
Definition loadOrdersResume (response : Settled OrderListResponse) : Cmd unit :=
  match response with
  | Fulfilled response =>
      setState (λ prev,
        {| orders := r_orders response;
           loading := false;
           error := error prev;
           filters := filters prev;
           pagination := {| page := r_page response;
                            page_size := r_page_size response;
                            total := r_total response |} |})
  | Rejected =>
      setState (λ prev,
        {| orders := orders prev; loading := false;
           error := Some "Ошибка загрузки заказов";
           filters := filters prev; pagination := pagination prev |});;
      toastError "Не удалось загрузить заказы"
  end.

(** [handleRefresh]: [loadOrders()] takes its three default arguments
    from [state] and is not awaited, so the toast follows the sending of
    the request and precedes its settling. *)
Definition handleRefresh (state : OrderListState) : Cmd unit :=
  response ← loadOrdersBegin (filters state) (page (pagination state))
               (page_size (pagination state));
  toastSuccess "Данные обновлены";;
  loadOrdersResume response.

End WithApi.

(** [(acc[order.status] || 0) + 1]. *)
Definition bump (acc : gmap string Z) (key : string) : gmap string Z :=
  let seen := match acc !! key with
              | Some n => if truthyNumber n then n else 0
              | None => 0
              end in
  <[key := seen + 1]> acc.

(** [state.orders.reduce((acc, order) => { ...; return acc }, {})]. *)
Definition statusCounts (cached : list Order) : gmap string Z :=
  foldl (λ acc order, bump acc (statusText (o_status order))) ∅ cached.

(** [stats[key] || 0]. *)
Definition countOr0 (stats : gmap string Z) (key : string) : Z :=
  match stats !! key with
  | Some n => if truthyNumber n then n else 0
  | None => 0
  end.

(** [getStatusStats]: status, count and badge colour, in display order. *)
Definition getStatusStats (st : OrderListState) : list (OrderStatus * Z * string) :=
  let stats := statusCounts (orders st) in
  [ (StatusNew, countOr0 stats "новый", "bg-blue-500");
    (StatusInProgress, countOr0 stats "в работе", "bg-orange-500");
    (StatusReady, countOr0 stats "готов", "bg-green-500");
    (StatusDelivered, countOr0 stats "доставлен", "bg-gray-500") ].

End OrdersListMore.

(** ** Further reference predicates *)

Module ReferenceMore.

(** No field of the filters holds a falsy value (0 or the empty string). *)
Definition normalized (f : OrderFilters) : Prop :=
  f_client_phone f ≠ Some "" ∧ f_executor_id f ≠ Some 0
  ∧ f_date_from f ≠ Some "" ∧ f_date_to f ≠ Some ""
  ∧ f_min_price f ≠ Some 0 ∧ f_max_price f ≠ Some 0.

(** The names of the criteria a filter sets. *)
Definition criterion {A : Type} (name : string) (field : option A) : list string :=
  match field with
  | Some _ => [name]
  | None => []
  end.


(** The pages 1 to [n] of a query, one after the other. *)
Definition pagesUpTo (getTime : string → option Z) (data : list Order)
    (f : OrderFilters) (pageSize : Z) (n : nat) : list Order :=
  mjoin ((λ p : nat, r_orders (MockApi.mockApiCallOn getTime data f (Z.of_nat p) pageSize))
           <$> seq 1 n).

(** [a] was created no earlier than [b], both creation dates being valid. *)
Definition newerOrSame (getTime : string → option Z) (a b : Order) : Prop :=
  ∃ ta tb, getTime (o_created_at a) = Some ta
           ∧ getTime (o_created_at b) = Some tb ∧ tb ≤ ta.

(** The joined executor of a record, when present, is the user its
    [executor_id] names. *)
Definition executorConsistent (o : Order) : Prop :=
  ∀ u, o_executor o = Some u → o_executor_id o = Some (u_id u).

(** The state with one order id rewritten in the cached records. *)
Definition editOrders (target : Z) (edit : Order → Order)
    (st : OrderListState) : OrderListState :=
  {| orders := (λ order, if o_id order =? target then edit order else order)
               <$> orders st;
     loading := loading st; error := error st;
     filters := filters st; pagination := pagination st |}.

(** How many cached records have a given status. *)
Definition countStatus (s : OrderStatus) (cached : list Order) : Z :=
  Z.of_nat (length (filter (λ o, o_status o = s) cached)).

(** A query parameter that is sent only when its value is there. *)
Definition optionalParam (key : string) (value : option string) :
    list (string * string) :=
  match value with
  | Some v => [(key, v)]
  | None => []
  end.

(** Every field of the filters is absent or falsy. *)
Definition unconstrained (f : OrderFilters) : Prop :=
  f_status f = None
  ∧ (f_client_phone f = None ∨ f_client_phone f = Some "")
  ∧ (f_executor_id f = None ∨ f_executor_id f = Some 0)
  ∧ (f_date_from f = None ∨ f_date_from f = Some "")
  ∧ (f_date_to f = None ∨ f_date_to f = Some "")
  ∧ (f_min_price f = None ∨ f_min_price f = Some 0)
  ∧ (f_max_price f = None ∨ f_max_price f = Some 0).

End ReferenceMore.

(* ================================================================== *)
(** * Part II: properties                                               *)
(* ================================================================== *)

(** ** The page window *)

Module PageWindowFacts.

Import PageWindow.

(** The counting loop appends the run [i, i+1, ..., hi] (nothing when
    [hi < i]). *)
Lemma pushRange_seqZ (i hi : Z) (pages : list PageItem) :
  pushRange i hi pages = pages ++ (PageNumber <$> seqZ i (hi + 1 - i)).
Proof.
  funelim (pushRange i hi pages).
  - match goal with IH : pushRange _ _ _ = _ ++ _ |- _ => rewrite IH end.
    rewrite (seqZ_cons i) by lia.
    rewrite <- app_assoc. cbn [app fmap list_fmap].
    do 3 f_equal. f_equal; lia.
  - rewrite seqZ_nil by lia. now rewrite app_nil_r.
Qed.

Lemma seqZ_four (m : Z) : seqZ m 4 = [m; m + 1; m + 2; m + 3].
Proof.
  rewrite !seqZ_cons by lia. rewrite seqZ_nil by lia.
  repeat f_equal; lia.
Qed.

Lemma seqZ_three (m : Z) : seqZ m 3 = [m; m + 1; m + 2].
Proof.
  rewrite !seqZ_cons by lia. rewrite seqZ_nil by lia.
  repeat f_equal; lia.
Qed.

(** The code computes the window the specification describes. *)
Lemma getPageNumbers_refines (C T : Z) :
  getPageNumbers C T = pageWindowSpec C T.
Proof.
  unfold getPageNumbers, pageWindowSpec, maxVisible.
  rewrite !pushRange_seqZ.
  destruct (decide (T ≤ 5)) as [HT | HT].
  - rewrite (proj2 (Z.leb_le T 5) HT). cbn [app]. do 2 f_equal. lia.
  - rewrite (proj2 (Z.leb_gt T 5)) by lia.
    destruct (decide (C ≤ 3)) as [HC | HC].
    + rewrite (proj2 (Z.leb_le C 3) HC).
      replace (4 + 1 - 1) with 4 by lia. rewrite seqZ_four. reflexivity.
    + rewrite (proj2 (Z.leb_gt C 3)) by lia.
      destruct (decide (T - 2 ≤ C)) as [HE | HE].
      * rewrite (proj2 (Z.geb_le C (T - 2)) HE).
        replace (T + 1 - (T - 3)) with 4 by lia. rewrite seqZ_four.
        replace (T - 3 + 1) with (T - 2) by lia.
        replace (T - 3 + 2) with (T - 1) by lia.
        replace (T - 3 + 3) with T by lia. reflexivity.
      * destruct (C >=? T - 2) eqn:E; [apply Z.geb_le in E; lia |].
        replace (C + 1 + 1 - (C - 1)) with 3 by lia. rewrite seqZ_three.
        replace (C - 1 + 1) with C by lia.
        replace (C - 1 + 2) with (C + 1) by lia. reflexivity.
Qed.

Lemma concretePages_numbers (l : list Z) : concretePages (PageNumber <$> l) = l.
Proof.
  unfold concretePages. induction l as [| x l IH]; [reflexivity |].
  cbn. f_equal. exact IH.
Qed.

Lemma seqZ_increasing (n : nat) (m : Z) :
  StronglySorted Z.lt (seqZ m (Z.of_nat n)).
Proof.
  revert m. induction n as [| n IH]; intros m.
  - rewrite seqZ_nil by lia. constructor.
  - rewrite seqZ_cons by lia.
    replace (Z.pred (Z.of_nat (S n))) with (Z.of_nat n) by lia.
    constructor; [apply IH |].
    apply Forall_seqZ. intros k Hk. lia.
Qed.

Lemma increasing_NoDup (l : list Z) : StronglySorted Z.lt l → NoDup l.
Proof.
  induction 1 as [| x l _ IH Hx]; constructor; [| exact IH].
  intros Hin. rewrite Forall_forall in Hx. specialize (Hx _ Hin). lia.
Qed.

(** C1.  For every total-page count [T] and current page [C],
    [getPageNumbers] returns the piecewise reference sequence: the pages
    [1..T] without ellipsis when [T <= 5]; [1,2,3,4,...,T] when [T > 5] and
    [C <= 3]; [1,...,T-3,T-2,T-1,T] when [T > 5] and [C >= T-2];
    [1,...,C-1,C,C+1,...,T] when [T > 5] and [3 < C < T-2].  In particular
    [T = 0] gives the empty sequence and [T = 1] gives [[1]]. *)
Theorem getPageNumbers_piecewise (C T : Z) :
  (T ≤ 5 → getPageNumbers C T = PageNumber <$> seqZ 1 T)
  ∧ (5 < T → C ≤ 3 →
       getPageNumbers C T =
       [PageNumber 1; PageNumber 2; PageNumber 3; PageNumber 4; ellipsis;
        PageNumber T])
  ∧ (5 < T → T - 2 ≤ C →
       getPageNumbers C T =
       [PageNumber 1; ellipsis; PageNumber (T - 3); PageNumber (T - 2);
        PageNumber (T - 1); PageNumber T])
  ∧ (5 < T → 3 < C < T - 2 →
       getPageNumbers C T =
       [PageNumber 1; ellipsis; PageNumber (C - 1); PageNumber C;
        PageNumber (C + 1); ellipsis; PageNumber T])
  ∧ getPageNumbers C 0 = []
  ∧ getPageNumbers C 1 = [PageNumber 1].
Proof.
  rewrite !getPageNumbers_refines. unfold pageWindowSpec.
  repeat split; intros; repeat case_decide; try lia; reflexivity.
Qed.

Lemma getPageNumbers_piecewise_witness :
  getPageNumbers 2 3 = [PageNumber 1; PageNumber 2; PageNumber 3]
  ∧ getPageNumbers 1 6 =
      [PageNumber 1; PageNumber 2; PageNumber 3; PageNumber 4; ellipsis;
       PageNumber 6]
  ∧ getPageNumbers 9 10 =
      [PageNumber 1; ellipsis; PageNumber 7; PageNumber 8; PageNumber 9;
       PageNumber 10]
  ∧ getPageNumbers 5 10 =
      [PageNumber 1; ellipsis; PageNumber 4; PageNumber 5; PageNumber 6;
       ellipsis; PageNumber 10].
Proof.
  split; [| split; [| split]].
  - apply (proj1 (getPageNumbers_piecewise 2 3)). lia.
  - apply (proj1 (proj2 (getPageNumbers_piecewise 1 6))); lia.
  - apply (proj1 (proj2 (proj2 (getPageNumbers_piecewise 9 10)))); lia.
  - apply (proj1 (proj2 (proj2 (proj2 (getPageNumbers_piecewise 5 10))))); lia.
Defined.

(** The same window, entry by entry, at the boundary [T = 6]: page 4
    occurs once. *)
Example getPageNumbers_six :
  concretePages (getPageNumbers 3 6) = [1; 2; 3; 4; 6]
  ∧ concretePages (getPageNumbers 4 6) = [1; 3; 4; 5; 6].
Proof. split; reflexivity. Qed.

(** C2.  For every [T >= 1] and every current page [C] with
    [1 <= C <= T], the concrete page numbers of the returned sequence are
    strictly increasing from first to last; in particular no concrete page
    number occurs twice. *)
Theorem getPageNumbers_increasing (C T : Z) :
  1 ≤ T → 1 ≤ C ≤ T →
  StronglySorted Z.lt (concretePages (getPageNumbers C T))
  ∧ NoDup (concretePages (getPageNumbers C T)).
Proof.
  intros HT HC.
  assert (Hs : StronglySorted Z.lt (concretePages (getPageNumbers C T))).
  { rewrite getPageNumbers_refines. unfold pageWindowSpec.
    repeat case_decide.
    - rewrite concretePages_numbers.
      rewrite <- (Z2Nat.id T) by lia. apply seqZ_increasing.
    - cbn. repeat (constructor; [| repeat constructor; lia]). constructor.
    - cbn. repeat (constructor; [| repeat constructor; lia]). constructor.
    - cbn. repeat (constructor; [| repeat constructor; lia]). constructor. }
  split; [exact Hs | apply increasing_NoDup, Hs].
Qed.

Lemma getPageNumbers_increasing_witness :
  StronglySorted Z.lt (concretePages (getPageNumbers 3 6))
  ∧ NoDup (concretePages (getPageNumbers 3 6)).
Proof. apply (getPageNumbers_increasing 3 6); lia. Defined.

(** Every concrete entry of the window is a page between 1 and [T]. *)
Lemma concretePages_in_range (C T p : Z) :
  1 ≤ C ≤ T → p ∈ concretePages (getPageNumbers C T) → 1 ≤ p ≤ T.
Proof.
  intros HC. rewrite getPageNumbers_refines. unfold pageWindowSpec.
  repeat case_decide.
  - rewrite concretePages_numbers, elem_of_seqZ. lia.
  - cbn. rewrite !elem_of_cons, elem_of_nil. lia.
  - cbn. rewrite !elem_of_cons, elem_of_nil. lia.
  - cbn. rewrite !elem_of_cons, elem_of_nil. lia.
Qed.

(** The rendered control only offers pages between 1 and [T]. *)
Lemma clickablePages_in_range (C T p : Z) (isLoading : bool) :
  1 ≤ C ≤ T → p ∈ clickablePages C T isLoading → 1 ≤ p ≤ T.
Proof.
  intros HC. unfold clickablePages.
  destruct (negb (1 <? T) || isLoading); [now rewrite elem_of_nil |].
  rewrite !elem_of_app. intros [Hp | [Hp | Hp]].
  - destruct (C =? 1) eqn:E; [now apply elem_of_nil in Hp |].
    apply Z.eqb_neq in E. apply list_elem_of_singleton in Hp. lia.
  - now apply (concretePages_in_range C T p).
  - destruct (C =? T) eqn:E; [now apply elem_of_nil in Hp |].
    apply Z.eqb_neq in E. apply list_elem_of_singleton in Hp. lia.
Qed.

End PageWindowFacts.

(** ** The mock order query *)

Module MockApiFacts.

Import MockApi Reference.

(** *** Strings *)

Lemma append_cons (c : Ascii.ascii) (a b : string) :
  String c a +:+ b = String c (a +:+ b).
Proof. reflexivity. Qed.

Lemma append_empty (b : string) : "" +:+ b = b.
Proof. reflexivity. Qed.

Lemma prefix_append (a s : string) :
  String.prefix a s = true ↔ ∃ post, s = a +:+ post.
Proof.
  revert s. induction a as [| c a IH]; intros s.
  - destruct s; cbn; split; eauto.
  - setoid_rewrite append_cons. destruct s as [| d s]; cbn.
    + split; [discriminate | intros [post H]; discriminate].
    + destruct (Ascii.ascii_dec c d) as [-> | Hne].
      * rewrite IH. split; intros [post H]; exists post; congruence.
      * split; [discriminate | intros [post H]; congruence].
Qed.

Lemma includes_Substring (s sub : string) :
  JS.includes s sub = true ↔ Substring sub s.
Proof.
  unfold Substring. induction s as [| c s IH]; cbn [JS.includes].
  - rewrite orb_false_r, prefix_append. split.
    + intros [post H]. exists "", post. exact H.
    + intros [[| d pre] [post H]]; [exists post; exact H |].
      rewrite append_cons in H. discriminate.
  - rewrite orb_true_iff, prefix_append, IH. split.
    + intros [[post H] | [pre [post H]]].
      * exists "", post. exact H.
      * exists (String c pre), post. rewrite append_cons. now rewrite H.
    + intros [[| d pre] [post H]].
      * left. exists post. exact H.
      * right. exists pre, post. rewrite append_cons in H. congruence.
Qed.

(** *** Arrays *)

Lemma insertBy_Permutation {A} (cmp : A → A → Z) (x : A) (l : list A) :
  JS.insertBy cmp x l ≡ₚ x :: l.
Proof.
  induction l as [| y l IH]; cbn; [reflexivity |].
  destruct (0 <? cmp x y); [| reflexivity].
  rewrite IH. apply Permutation_swap.
Qed.

Lemma sort_Permutation {A} (cmp : A → A → Z) (l : list A) :
  JS.sort cmp l ≡ₚ l.
Proof.
  unfold JS.sort. induction l as [| x l IH]; cbn; [reflexivity |].
  now rewrite insertBy_Permutation, IH.
Qed.

Lemma slice_subseteq {A} (l : list A) (a b : Z) : JS.slice l a b ⊆ l.
Proof.
  unfold JS.slice. intros x Hx.
  eapply elem_of_sublist; [exact Hx |].
  etransitivity; [apply sublist_take | apply sublist_drop].
Qed.

(** The first page holds everything when the page size covers the list. *)
Lemma slice_first_page {A} (l : list A) (n : Z) :
  Z.of_nat (length l) ≤ n → JS.slice l 0 n = l.
Proof.
  intros Hn. unfold JS.slice, JS.relativeIndex.
  destruct (0 <? 0) eqn:E0; [apply Z.ltb_lt in E0; lia |].
  destruct (n <? 0) eqn:En; [apply Z.ltb_lt in En; lia |].
  rewrite (Z.min_l 0) by lia. rewrite (Z.min_r n) by lia.
  cbn [Z.to_nat drop]. apply take_ge. lia.
Qed.

Lemma filter_true {A} (l : list A) : List.filter (λ _, true) l = l.
Proof. induction l as [| x l IH]; cbn; congruence. Qed.

Lemma filter_filter_andb {A} (p q : A → bool) (l : list A) :
  List.filter p (List.filter q l) = List.filter (λ x, q x && p x) l.
Proof.
  induction l as [| x l IH]; cbn; [reflexivity |].
  destruct (q x); cbn; [destruct (p x) |]; congruence.
Qed.

Lemma filter_stage {A B} (field : option B) (g : B → A → bool) (l : list A) :
  match field with Some v => List.filter (g v) l | None => l end
  = List.filter (λ x, constrained field (λ v, g v x)) l.
Proof. destruct field; cbn; [reflexivity | now rewrite filter_true]. Qed.

Lemma filter_decide {A} (p : A → bool) (P : A → Prop) `{∀ x, Decision (P x)}
    (l : list A) :
  (∀ x, p x = true ↔ P x) → List.filter p l = filter P l.
Proof.
  intros Hp. induction l as [| x l IH]; [reflexivity |].
  cbn [List.filter]. rewrite filter_cons, IH.
  destruct (p x) eqn:E; case_decide as HP; try reflexivity.
  - apply Hp in E. contradiction.
  - apply Hp in HP. congruence.
Qed.

Lemma elem_of_List_filter {A} (p : A → bool) (x : A) (l : list A) :
  x ∈ List.filter p l ↔ x ∈ l ∧ p x = true.
Proof. rewrite !list_elem_of_In. apply filter_In. Qed.

(** *** The filter chain *)

Section WithDate.

Variable getTime : string → option Z.

(** The chain of conditional [filter] calls keeps the records that pass
    every constraint. *)
Lemma applyFilters_passes (data : list Order) (f : OrderFilters) :
  applyFilters getTime data f = List.filter (passes getTime f) data.
Proof.
  unfold applyFilters. cbv zeta.
  rewrite !filter_stage, !filter_filter_andb.
  apply List.filter_ext. intros o. unfold passes.
  now rewrite !andb_assoc.
Qed.

Lemma mockApiCallOn_orders_subseteq data f pg ps :
  r_orders (mockApiCallOn getTime data f pg ps) ⊆ List.filter (passes getTime f) data.
Proof.
  unfold mockApiCallOn. cbn [r_orders]. intros o Ho.
  apply slice_subseteq in Ho. rewrite sort_Permutation in Ho.
  now rewrite applyFilters_passes in Ho.
Qed.

Lemma mockApiCallOn_first_page data f ps :
  Z.of_nat (length data) ≤ ps →
  r_orders (mockApiCallOn getTime data f 1 ps) ≡ₚ List.filter (passes getTime f) data.
Proof.
  intros Hps. unfold mockApiCallOn. cbn [r_orders].
  replace ((1 - 1) * ps) with 0 by lia. rewrite Z.add_0_l.
  rewrite slice_first_page.
  - now rewrite sort_Permutation, applyFilters_passes.
  - rewrite sort_Permutation, applyFilters_passes.
    pose proof (List.filter_length_le (passes getTime f) data). lia.
Qed.

Lemma mockApiCallOn_total data f pg ps :
  r_total (mockApiCallOn getTime data f pg ps)
  = Z.of_nat (length (List.filter (passes getTime f) data)).
Proof.
  unfold mockApiCallOn. cbn [r_total].
  now rewrite sort_Permutation, applyFilters_passes.
Qed.

(** *** Price bounds *)

Lemma truthyNumber_true (n : Z) : JS.truthyNumber n = true ↔ n ≠ 0.
Proof.
  unfold JS.truthyNumber. rewrite negb_true_iff, Z.eqb_neq. reflexivity.
Qed.

Lemma truthyField_number (n : Z) :
  n ≠ 0 → truthyField JS.truthyNumber (Some n) = Some n.
Proof.
  intros Hn. cbn. now rewrite (proj2 (truthyNumber_true n) Hn).
Qed.

Lemma truthyString_true (s : string) : JS.truthyString s = true ↔ s ≠ "".
Proof. destruct s; cbn; split; congruence. Qed.

Lemma priceAnd_true (price : option Z) (test : Z → bool) :
  priceAnd price test = true ↔ ∃ p, price = Some p ∧ p ≠ 0 ∧ test p = true.
Proof.
  unfold priceAnd. destruct price as [p |].
  - rewrite andb_true_iff, truthyNumber_true. split.
    + intros [H1 H2]. eauto.
    + intros [q [[= <-] H]]. exact H.
  - split; [discriminate | intros [p [H _]]; discriminate].
Qed.

(** A record that passes a filter with non-zero price bounds has a
    non-zero price within them. *)
Lemma passes_price_bounds (f : OrderFilters) (lo hi : Z) (o : Order) :
  f_min_price f = Some lo → f_max_price f = Some hi → lo ≠ 0 → hi ≠ 0 →
  passes getTime f o = true → priceWithin lo hi o.
Proof.
  intros Hlo Hhi Hl Hh. unfold passes. rewrite Hlo, Hhi.
  rewrite !truthyField_number by assumption.
  rewrite !andb_true_iff. cbn [constrained from_option].
  intros [[_ H1] H2].
  apply priceAnd_true in H1 as [p [Hp [Hp0 H1]]].
  apply priceAnd_true in H2 as [q [Hq [_ H2]]].
  unfold priceWithin. rewrite Hp in *. injection Hq as <-.
  apply Z.leb_le in H1, H2. lia.
Qed.

Lemma passes_priceFilter (lo hi : Z) (o : Order) :
  lo ≠ 0 → hi ≠ 0 →
  passes getTime (priceFilter lo hi) o = true ↔ priceWithin lo hi o.
Proof.
  intros Hl Hh. split.
  - now apply passes_price_bounds.
  - unfold passes, priceFilter, priceWithin. cbn [f_status f_client_phone
      f_executor_id f_date_from f_date_to f_min_price f_max_price].
    rewrite !truthyField_number by assumption.
    cbn [truthyField constrained from_option andb].
    destruct (o_total_price o) as [p |]; [| contradiction].
    intros [Hp [H1 H2]]. cbn [priceAnd].
    rewrite (proj2 (truthyNumber_true p) Hp).
    rewrite (proj2 (Z.leb_le lo p) H1), (proj2 (Z.leb_le p hi) H2). reflexivity.
Qed.

(** C8 (amended).  For every record table and every filter whose
    [min_price] and [max_price] are both set to non-zero values (a bound of
    0 counts as absent), every record [mockApiCall] returns has a non-null,
    non-zero price [p] with [min_price <= p <= max_price], both bounds
    inclusive; when the price bounds are the only criteria, [total] counts
    exactly those records and the first page, when it covers the table,
    holds exactly them.  For a positive [min_price] these are the records
    with [min_price <= p <= max_price].  In particular the filter
    [{min_price: 10000, max_price: 20000}] over the mock table, priced
    [15000, 25000, 8000, 12000], yields exactly the 15000 and 12000
    records. *)
Theorem mockApiCall_price_range (data : list Order) (f : OrderFilters)
    (lo hi pageArg pageSize : Z) :
  f_min_price f = Some lo → f_max_price f = Some hi → lo ≠ 0 → hi ≠ 0 →
  (∀ o, o ∈ r_orders (mockApiCallOn getTime data f pageArg pageSize) →
        o ∈ data ∧ priceWithin lo hi o)
  ∧ (f = priceFilter lo hi →
       r_total (mockApiCallOn getTime data f pageArg pageSize)
       = Z.of_nat (length (filter (priceWithin lo hi) data))
       ∧ (pageArg = 1 → Z.of_nat (length data) ≤ pageSize →
            r_orders (mockApiCallOn getTime data f pageArg pageSize)
            ≡ₚ filter (priceWithin lo hi) data))
  ∧ (0 < lo → ∀ o, priceWithin lo hi o ↔ priceBetween lo hi o)
  ∧ o_total_price <$> r_orders (mockApiCall getTime (priceFilter 10000 20000) 1 20)
    ≡ₚ [Some 15000; Some 12000].
Proof.
  intros Hlo Hhi Hl Hh. split; [| split; [| split]].
  - intros o Ho.
    apply mockApiCallOn_orders_subseteq, elem_of_List_filter in Ho.
    destruct Ho as [Hin Hpass]. split; [exact Hin |].
    exact (passes_price_bounds f lo hi o Hlo Hhi Hl Hh Hpass).
  - intros ->. split.
    + rewrite mockApiCallOn_total. do 2 f_equal.
      apply filter_decide. intros o. now apply passes_priceFilter.
    + intros -> Hsize. rewrite mockApiCallOn_first_page by exact Hsize.
      erewrite filter_decide; [reflexivity |].
      intros o. now apply passes_priceFilter.
  - intros Hpos o. unfold priceWithin, priceBetween.
    destruct (o_total_price o); [| tauto]. split; [tauto | intros; split; lia].
  - unfold mockApiCall.
    rewrite mockApiCallOn_first_page by (cbn; lia). reflexivity.
Qed.

(** C9.  For every record table and every filter in which [min_price]
    (or [max_price]) is set to a non-zero value, every order whose
    [total_price] is null is excluded from the result of [mockApiCall]:
    neither the returned page nor the filtered set that [total] counts
    contains one, also when only the upper bound is set. *)
Theorem mockApiCall_price_filter_excludes_null (data : list Order)
    (f : OrderFilters) (m pageArg pageSize : Z) :
  f_min_price f = Some m ∨ f_max_price f = Some m → m ≠ 0 →
  (∀ o, o ∈ r_orders (mockApiCallOn getTime data f pageArg pageSize) →
        o_total_price o ≠ None)
  ∧ (∀ o, o ∈ applyFilters getTime data f → o_total_price o ≠ None).
Proof.
  intros Hset Hm.
  assert (Hpass : ∀ o, passes getTime f o = true → o_total_price o ≠ None).
  { intros o. unfold passes. rewrite !andb_true_iff.
    intros [[_ Hmin] Hmax].
    destruct Hset as [Hf | Hf]; rewrite Hf in *;
      rewrite truthyField_number in * by exact Hm;
      cbn [constrained from_option] in *.
    - apply priceAnd_true in Hmin as [p [Hp _]]. congruence.
    - apply priceAnd_true in Hmax as [p [Hp _]]. congruence. }
  split; intros o Ho; apply Hpass.
  - apply mockApiCallOn_orders_subseteq, elem_of_List_filter in Ho. tauto.
  - rewrite applyFilters_passes in Ho. apply elem_of_List_filter in Ho. tauto.
Qed.

(** *** Phone search *)

Lemma passes_phone (f : OrderFilters) (s : string) (o : Order) :
  f_client_phone f = Some s → s ≠ "" →
  passes getTime f o = true →
  Substring s (c_phone (o_client o)) ∨ Substring s (c_phone (o_recipient o)).
Proof.
  intros Hf Hs. unfold passes. rewrite Hf. cbn [truthyField].
  rewrite (proj2 (truthyString_true s) Hs). cbn [constrained from_option].
  rewrite !andb_true_iff. intros [[[[[[_ H] _] _] _] _] _].
  apply orb_true_iff in H. rewrite !includes_Substring in H. exact H.
Qed.

Lemma passes_phoneFilter (s : string) (o : Order) :
  s ≠ "" →
  passes getTime (phoneFilter s) o = true ↔
  Substring s (c_phone (o_client o)) ∨ Substring s (c_phone (o_recipient o)).
Proof.
  intros Hs. split; [now apply passes_phone |].
  unfold passes, phoneFilter. cbn [f_status f_client_phone f_executor_id
    f_date_from f_date_to f_min_price f_max_price truthyField].
  rewrite (proj2 (truthyString_true s) Hs).
  cbn [constrained from_option andb]. rewrite !andb_true_r.
  now rewrite orb_true_iff, !includes_Substring.
Qed.

(** C10.  For every record table and every non-empty [client_phone]
    filter string [s], [mockApiCall] returns an order if and only if [s] is
    a substring of the order's client phone number or of its recipient
    phone number: every returned order matches one of the two (whatever the
    page and the other criteria), and with the phone as the only criterion
    the first page, when it covers the table, holds exactly the orders that
    match either party. *)
Theorem mockApiCall_phone_either_party (data : list Order) (f : OrderFilters)
    (s : string) (pageArg pageSize : Z) :
  f_client_phone f = Some s → s ≠ "" →
  (∀ o, o ∈ r_orders (mockApiCallOn getTime data f pageArg pageSize) →
        o ∈ data ∧
        (Substring s (c_phone (o_client o)) ∨
         Substring s (c_phone (o_recipient o))))
  ∧ (f = phoneFilter s → pageArg = 1 → Z.of_nat (length data) ≤ pageSize →
       ∀ o, o ∈ r_orders (mockApiCallOn getTime data f pageArg pageSize) ↔
            o ∈ data ∧
            (Substring s (c_phone (o_client o)) ∨
             Substring s (c_phone (o_recipient o)))).
Proof.
  intros Hf Hs. split.
  - intros o Ho.
    apply mockApiCallOn_orders_subseteq, elem_of_List_filter in Ho.
    destruct Ho as [Hin Hpass]. split; [exact Hin |].
    exact (passes_phone f s o Hf Hs Hpass).
  - intros -> -> Hsize o.
    rewrite mockApiCallOn_first_page by exact Hsize.
    rewrite elem_of_List_filter, passes_phoneFilter by exact Hs. reflexivity.
Qed.

End WithDate.

(** *** Worked scenarios *)

Import Fixtures.

(** The price scenario of the specification on the mock table, in display
    order (newest first). *)
Example mockApiCall_price_scenario :
  o_id <$> r_orders (mockApiCall isoTime (priceFilter 10000 20000) 1 20) = [1; 4].
Proof. reflexivity. Qed.

Lemma mockApiCall_price_range_witness :
  o_total_price <$> r_orders (mockApiCall isoTime (priceFilter 10000 20000) 1 20)
  ≡ₚ [Some 15000; Some 12000].
Proof.
  apply (mockApiCall_price_range isoTime mockOrders (priceFilter 10000 20000)
           10000 20000 1 20); [reflexivity | reflexivity | lia | lia].
Defined.

(** C8 as stated fails when a bound or a price is 0: with
    [{min_price: 0, max_price: 100}] an order priced 0 lies within the
    bounds and is not returned; with [{min_price: 0, max_price: 0}] no
    bound is applied and an order priced 15000 is returned. *)
Lemma mockApiCall_price_range_counterexample :
  ¬ (∀ o, o ∈ r_orders (mockApiCallOn isoTime [freeOrder] (priceFilter 0 100) 1 20)
          ↔ o ∈ [freeOrder] ∧ priceBetween 0 100 o)
  ∧ ¬ (∀ o, o ∈ r_orders (mockApiCall isoTime (priceFilter 0 0) 1 20)
            ↔ o ∈ mockOrders ∧ priceBetween 0 0 o).
Proof.
  split.
  - intros H. specialize (H freeOrder).
    assert (Hin : freeOrder ∈ r_orders
              (mockApiCallOn isoTime [freeOrder] (priceFilter 0 100) 1 20)).
    { apply H. split; [apply list_elem_of_here | cbn; lia]. }
    vm_compute in Hin. inversion Hin.
  - intros H.
    assert (Hin : default freeOrder (mockOrders !! 0%nat) ∈ r_orders
              (mockApiCall isoTime (priceFilter 0 0) 1 20)).
    { vm_compute. apply list_elem_of_here. }
    apply H in Hin. destruct Hin as [_ Hp]. cbn in Hp. lia.
Qed.

Lemma mockApiCall_price_filter_excludes_null_witness :
  Forall (λ o, o_total_price o ≠ None)
    (r_orders (mockApiCallOn isoTime (unpricedOrder :: mockOrders)
                 (mkFilters None None None None None None (Some 20000)) 1 20)).
Proof.
  apply Forall_forall.
  apply (mockApiCall_price_filter_excludes_null isoTime
           (unpricedOrder :: mockOrders)
           (mkFilters None None None None None None (Some 20000)) 20000 1 20);
    [right; reflexivity | lia].
Defined.

Lemma mockApiCall_phone_either_party_witness :
  Forall (λ o, o ∈ r_orders (mockApiCall isoTime (phoneFilter "7087") 1 20) ↔
               o ∈ mockOrders ∧
               (Substring "7087" (c_phone (o_client o)) ∨
                Substring "7087" (c_phone (o_recipient o))))
    mockOrders.
Proof.
  apply Forall_forall. intros o _. revert o.
  apply (mockApiCall_phone_either_party isoTime mockOrders (phoneFilter "7087")
           "7087" 1 20);
    [reflexivity | discriminate | reflexivity | reflexivity | cbn; lia].
Defined.

(** Order 1 is found through its recipient's phone, order 2 through its
    client's. *)
Example mockApiCall_phone_scenario :
  o_id <$> r_orders (mockApiCall isoTime (phoneFilter "7087") 1 20) = [1; 2].
Proof. reflexivity. Qed.

End MockApiFacts.

(** ** The list-state controller *)

Module OrdersListFacts.

Import JS OrdersList Reference.

(** Unfold a handler down to the state transformer it denotes. *)
Ltac unfold_cmd :=
  unfold awaitGetOrders, awaitUpdateOrderStatus, awaitUpdateOrderExecutor,
    toastSuccess, toastError, setState, emit;
  unfold mbind, mret, Cmd_bind, Cmd_ret; cbn.

Section WithApi.

Variable api : ApiService.

(** *** Reloads *)

(** The world after a reload, from any world: one request is logged; a
    response replaces the records and the pagination and leaves the error
    cleared; a rejection keeps both and records the error. *)
Lemma loadOrders_world (f : OrderFilters) (p ps : Z) (w : World) :
  snd (loadOrders api f p ps w) =
  match getOrders api f p ps with
  | Fulfilled r =>
      {| store := {| orders := r_orders r; loading := false; error := None;
                     filters := filters (store w);
                     pagination := {| page := r_page r;
                                      page_size := r_page_size r;
                                      total := r_total r |} |};
         log := log w ++ [ApiGetOrders f p ps] |}
  | Rejected =>
      {| store := {| orders := orders (store w); loading := false;
                     error := Some "Ошибка загрузки заказов";
                     filters := filters (store w);
                     pagination := pagination (store w) |};
         log := (log w ++ [ApiGetOrders f p ps])
                ++ [ToastError "Не удалось загрузить заказы"] |}
  end.
Proof.
  unfold loadOrders. unfold_cmd.
  destruct (getOrders api f p ps); reflexivity.
Qed.

(** C4.  For every reload request issued by [loadOrders]: if the request
    succeeds, the cached page of records is replaced by the response's
    records and the pagination fields by the response's page, page size and
    total, in one state update, with the error cleared; if the request
    fails, the previously cached records and pagination fields are retained
    unchanged and an error is recorded in the state (and shown as a
    toast). *)
Theorem loadOrders_snapshot_replace (st : OrderListState) (f : OrderFilters)
    (p ps : Z) :
  (∀ r, getOrders api f p ps = Fulfilled r →
     store (run (loadOrders api f p ps) st) =
       {| orders := r_orders r; loading := false; error := None;
          filters := filters st;
          pagination := {| page := r_page r; page_size := r_page_size r;
                           total := r_total r |} |})
  ∧ (getOrders api f p ps = Rejected →
     orders (store (run (loadOrders api f p ps) st)) = orders st
     ∧ pagination (store (run (loadOrders api f p ps) st)) = pagination st
     ∧ filters (store (run (loadOrders api f p ps) st)) = filters st
     ∧ error (store (run (loadOrders api f p ps) st))
       = Some "Ошибка загрузки заказов"
     ∧ ToastError "Не удалось загрузить заказы"
       ∈ log (run (loadOrders api f p ps) st)).
Proof.
  unfold run. rewrite loadOrders_world. split.
  - intros r ->. reflexivity.
  - intros ->. cbn. repeat split. rewrite !elem_of_cons. auto.
Qed.

(** C3 (amended).  [handlePageChange(n)] performs no range check: for
    every controller state and every [n], inside or outside
    [1..ceil(total / page_size)], it issues exactly one reload request, for
    page [n] with the existing filters and page size, and a successful
    response then becomes the cached page and pagination.  Pages out of
    range are kept away by the pagination control instead: while the current
    page lies in [1..total_pages], every page it can pass to the handler
    lies there too. *)
Theorem handlePageChange_reloads_any_page (state st : OrderListState) (n : Z) :
  (log (run (handlePageChange api state n) st)
     = [ApiGetOrders (filters state) n (page_size (pagination state))]
   ∨ log (run (handlePageChange api state n) st)
     = [ApiGetOrders (filters state) n (page_size (pagination state));
        ToastError "Не удалось загрузить заказы"])
  ∧ (∀ r, getOrders api (filters state) n (page_size (pagination state))
          = Fulfilled r →
       orders (store (run (handlePageChange api state n) st)) = r_orders r
       ∧ page (pagination (store (run (handlePageChange api state n) st)))
         = r_page r)
  ∧ (∀ T p, totalPages state = Some T → 1 ≤ page (pagination state) ≤ T →
       p ∈ PageWindow.clickablePages (page (pagination state)) T (loading state) →
       1 ≤ p ≤ T).
Proof.
  unfold handlePageChange, run. rewrite loadOrders_world.
  split; [| split].
  - destruct (getOrders api _ _ _); [left | right]; reflexivity.
  - intros r ->. split; reflexivity.
  - intros T p _ HC Hp.
    exact (PageWindowFacts.clickablePages_in_range _ T p _ HC Hp).
Qed.

(** *** Filters and page size *)

Lemma handleFiltersChange_world (state st : OrderListState) (newFilters : OrderFilters) :
  run (handleFiltersChange api state newFilters) st =
  snd (loadOrders api newFilters 1 (page_size (pagination state))
         {| store := {| orders := orders st; loading := loading st;
                        error := error st; filters := newFilters;
                        pagination := {| page := 1;
                                         page_size := page_size (pagination st);
                                         total := total (pagination st) |} |};
            log := [] |}).
Proof. reflexivity. Qed.

(** C7 (amended).  After [handleFiltersChange(criteria)] the active filter
    criteria equal [criteria] and a reload for page 1 with the current page
    size has been requested; the current page is 1 when that reload fails,
    and the page the response reports when it succeeds (1 when the
    collaborator echoes the requested page).  [handlePageSizeChange(size)]
    requests a reload for page 1 with the new size and touches the state
    only through that reload: when it succeeds the page and the page size
    are the ones the response reports, when it fails the pagination keeps
    its previous page and page size. *)
Theorem page_reset_follows_reload (state st : OrderListState)
    (criteria : OrderFilters) (size : Z) :
  (filters (store (run (handleFiltersChange api state criteria) st)) = criteria
   ∧ (∃ rest, log (run (handleFiltersChange api state criteria) st)
              = ApiGetOrders criteria 1 (page_size (pagination state)) :: rest)
   ∧ (getOrders api criteria 1 (page_size (pagination state)) = Rejected →
        page (pagination (store (run (handleFiltersChange api state criteria) st)))
        = 1)
   ∧ (∀ r, getOrders api criteria 1 (page_size (pagination state)) = Fulfilled r →
        page (pagination (store (run (handleFiltersChange api state criteria) st)))
        = r_page r))
  ∧ ((∃ rest, log (run (handlePageSizeChange api state size) st)
              = ApiGetOrders (filters state) 1 size :: rest)
     ∧ (∀ r, getOrders api (filters state) 1 size = Fulfilled r →
          page (pagination (store (run (handlePageSizeChange api state size) st)))
          = r_page r
          ∧ page_size (pagination (store (run (handlePageSizeChange api state size) st)))
            = r_page_size r)
     ∧ (getOrders api (filters state) 1 size = Rejected →
          pagination (store (run (handlePageSizeChange api state size) st))
          = pagination st)).
Proof.
  split.
  - rewrite handleFiltersChange_world, loadOrders_world.
    destruct (getOrders api criteria 1 _) as [r |]; cbn;
      (split; [reflexivity |]); (split; [eexists; reflexivity |]);
      split; try discriminate; try reflexivity.
    intros r' [= <-]. reflexivity.
  - unfold handlePageSizeChange, run. rewrite loadOrders_world.
    destruct (getOrders api (filters state) 1 size) as [r |]; cbn;
      (split; [eexists; reflexivity |]); split; try discriminate.
    + intros r' [= <-]. split; reflexivity.
    + reflexivity.
Qed.

(** *** Single-record edits *)

Lemma handleStatusChange_world (st : OrderListState) (orderId : Z)
    (newStatus : OrderStatus) :
  run (handleStatusChange api orderId newStatus) st =
  match updateOrderStatus api orderId newStatus with
  | Fulfilled _ =>
      {| store := {| orders := (λ order, if o_id order =? orderId
                                         then withStatus order newStatus
                                         else order) <$> orders st;
                     loading := loading st; error := error st;
                     filters := filters st; pagination := pagination st |};
         log := [ApiUpdateOrderStatus orderId newStatus;
                 ToastSuccess ("Статус заказа #" +:+ numberToString orderId
                               +:+ " изменен на " +:+ dquote
                               +:+ statusText newStatus +:+ dquote)] |}
  | Rejected =>
      {| store := st;
         log := [ApiUpdateOrderStatus orderId newStatus;
                 ToastError "Не удалось изменить статус заказа"] |}
  end.
Proof.
  unfold handleStatusChange, run. unfold_cmd.
  destruct (updateOrderStatus api orderId newStatus); reflexivity.
Qed.

Lemma handleExecutorChange_world (users : list User) (st : OrderListState)
    (orderId : Z) (executorId : option Z) :
  run (handleExecutorChange api users orderId executorId) st =
  match updateOrderExecutor api orderId executorId with
  | Fulfilled _ =>
      {| store := {| orders := (λ order, if o_id order =? orderId
                                         then withExecutor order executorId
                                                (executorOf users executorId)
                                         else order) <$> orders st;
                     loading := loading st; error := error st;
                     filters := filters st; pagination := pagination st |};
         log := [ApiUpdateOrderExecutor orderId executorId;
                 ToastSuccess
                   (if from_option truthyNumber false executorId
                    then "Исполнитель назначен для заказа #" +:+ numberToString orderId
                    else "Исполнитель убран с заказа #" +:+ numberToString orderId)] |}
  | Rejected =>
      {| store := st;
         log := [ApiUpdateOrderExecutor orderId executorId;
                 ToastError "Не удалось изменить исполнителя"] |}
  end.
Proof.
  unfold handleExecutorChange, run. unfold_cmd.
  destruct (updateOrderExecutor api orderId executorId); reflexivity.
Qed.

End WithApi.

(** [orders.map(order => order.id === orderId ? edit(order) : order)]
    rewrites the list position by position. *)
Lemma map_edit_pointwise (target : Z) (edit : Order → Order) (l : list Order) :
  pointwiseEdit target edit l
    ((λ order, if o_id order =? target then edit order else order) <$> l).
Proof.
  split; [apply length_fmap |].
  intros i o Hi. rewrite list_lookup_fmap, Hi. cbn. f_equal.
  destruct (Z.eqb_spec (o_id o) target); case_decide; congruence.
Qed.

(** When ids are distinct and [target] occurs, that is one overwrite. *)
Lemma map_edit_single (target : Z) (edit : Order → Order) (l : list Order) :
  (∃ o, o ∈ l ∧ o_id o = target) → NoDup (o_id <$> l) →
  singleEdit target edit l
    ((λ order, if o_id order =? target then edit order else order) <$> l).
Proof.
  intros [o [Hin Hid]] Hnd.
  apply list_elem_of_lookup in Hin as [i Hi].
  exists i, o. repeat split; [exact Hi | exact Hid |].
  apply list_eq. intros j. rewrite list_lookup_fmap.
  destruct (decide (i = j)) as [<- | Hne].
  - rewrite list_lookup_insert_eq by (now apply lookup_lt_Some in Hi).
    rewrite Hi. cbn. now rewrite (proj2 (Z.eqb_eq _ _) Hid).
  - rewrite list_lookup_insert_ne by exact Hne.
    destruct (l !! j) as [x |] eqn:Hj; [| reflexivity]. cbn. f_equal.
    destruct (Z.eqb_spec (o_id x) target) as [Hx | Hx]; [| reflexivity].
    exfalso. apply Hne.
    apply (NoDup_lookup (o_id <$> l) i j target Hnd);
      rewrite list_lookup_fmap; [rewrite Hi | rewrite Hj]; cbn; congruence.
Qed.

Lemma withStatus_frame (o : Order) (s : OrderStatus) :
  sameExceptStatus o (withStatus o s) ∧ o_status (withStatus o s) = s.
Proof. unfold sameExceptStatus. cbn. tauto. Qed.

Lemma withExecutor_frame (o : Order) (e : option Z) (u : option User) :
  sameExceptExecutor o (withExecutor o e u)
  ∧ o_executor_id (withExecutor o e u) = e ∧ o_executor (withExecutor o e u) = u.
Proof. unfold sameExceptExecutor. cbn. tauto. Qed.

Section Edits.

Variable api : ApiService.
Variable users : list User.

(** C5.  For every cached list of orders containing an order with id
    [orderId], a successful [handleStatusChange(orderId, newStatus)]
    (respectively [handleExecutorChange(orderId, executorId)]) changes only
    the [status] field (respectively the executor reference) of the cached
    records whose id equals [orderId], which is a single record when ids
    are distinct; every other cached record, every other field of the
    matching record and the rest of the controller state are unchanged; the
    only request is the one update, and no reload request is issued. *)
Theorem edit_success_touches_only_target (st : OrderListState) (orderId : Z) :
  (∃ o, o ∈ orders st ∧ o_id o = orderId) →
  (∀ newStatus r, updateOrderStatus api orderId newStatus = Fulfilled r →
     onlyOrdersChange st (store (run (handleStatusChange api orderId newStatus) st))
     ∧ pointwiseEdit orderId (λ o, withStatus o newStatus) (orders st)
         (orders (store (run (handleStatusChange api orderId newStatus) st)))
     ∧ (∀ o, sameExceptStatus o (withStatus o newStatus)
             ∧ o_status (withStatus o newStatus) = newStatus)
     ∧ (NoDup (o_id <$> orders st) →
          singleEdit orderId (λ o, withStatus o newStatus) (orders st)
            (orders (store (run (handleStatusChange api orderId newStatus) st))))
     ∧ noReload (log (run (handleStatusChange api orderId newStatus) st))
     ∧ ∃ msg, log (run (handleStatusChange api orderId newStatus) st)
              = [ApiUpdateOrderStatus orderId newStatus; ToastSuccess msg])
  ∧ (∀ executorId r, updateOrderExecutor api orderId executorId = Fulfilled r →
     onlyOrdersChange st
       (store (run (handleExecutorChange api users orderId executorId) st))
     ∧ pointwiseEdit orderId
         (λ o, withExecutor o executorId (executorOf users executorId)) (orders st)
         (orders (store (run (handleExecutorChange api users orderId executorId) st)))
     ∧ (∀ o, sameExceptExecutor o
               (withExecutor o executorId (executorOf users executorId))
             ∧ o_executor_id (withExecutor o executorId (executorOf users executorId))
               = executorId
             ∧ o_executor (withExecutor o executorId (executorOf users executorId))
               = executorOf users executorId)
     ∧ (NoDup (o_id <$> orders st) →
          singleEdit orderId
            (λ o, withExecutor o executorId (executorOf users executorId)) (orders st)
            (orders (store (run (handleExecutorChange api users orderId executorId) st))))
     ∧ noReload (log (run (handleExecutorChange api users orderId executorId) st))
     ∧ ∃ msg, log (run (handleExecutorChange api users orderId executorId) st)
              = [ApiUpdateOrderExecutor orderId executorId; ToastSuccess msg]).
Proof.
  intros Hin. split.
  - intros newStatus r Hr. rewrite handleStatusChange_world, Hr. cbn [store log orders].
    split; [| split; [| split; [| split; [| split]]]].
    + repeat split.
    + apply map_edit_pointwise.
    + intros o. apply withStatus_frame.
    + intros Hnd. now apply map_edit_single.
    + intros f p ps. rewrite !elem_of_cons, elem_of_nil.
      intros [H | [H | []]]; discriminate.
    + eexists. reflexivity.
  - intros executorId r Hr. rewrite handleExecutorChange_world, Hr.
    cbn [store log orders].
    split; [| split; [| split; [| split; [| split]]]].
    + repeat split.
    + apply map_edit_pointwise.
    + intros o. apply withExecutor_frame.
    + intros Hnd. now apply map_edit_single.
    + intros f p ps. rewrite !elem_of_cons, elem_of_nil.
      intros [H | [H | []]]; discriminate.
    + eexists. reflexivity.
Qed.

(** C6.  For every [handleStatusChange] or [handleExecutorChange] whose
    update request fails, the entire controller state (records, filters,
    pagination, error, loading flag) is left untouched, and the failure is
    signalled to the user by an error toast; nothing else happens. *)
Theorem edit_failure_leaves_state (st : OrderListState) (orderId : Z) :
  (∀ newStatus, updateOrderStatus api orderId newStatus = Rejected →
     run (handleStatusChange api orderId newStatus) st =
       {| store := st;
          log := [ApiUpdateOrderStatus orderId newStatus;
                  ToastError "Не удалось изменить статус заказа"] |})
  ∧ (∀ executorId, updateOrderExecutor api orderId executorId = Rejected →
     run (handleExecutorChange api users orderId executorId) st =
       {| store := st;
          log := [ApiUpdateOrderExecutor orderId executorId;
                  ToastError "Не удалось изменить исполнителя"] |}).
Proof.
  split.
  - intros newStatus Hr. now rewrite handleStatusChange_world, Hr.
  - intros executorId Hr. now rewrite handleExecutorChange_world, Hr.
Qed.

End Edits.

(** *** Worked scenarios *)

Import Fixtures.

(** The scenario of the specification: 47 orders, 20 to a page. *)
Example totalPages_47_20 : totalPages state47 = Some 3.
Proof. reflexivity. Qed.

(** C3 as stated fails: with three pages, [handlePageChange(4)] requests
    page 4 all the same and the state follows the response. *)
Lemma handlePageChange_out_of_range_counterexample :
  totalPages state47 = Some 3
  ∧ log (run (handlePageChange mockService state47 4) state47)
    = [ApiGetOrders noFilters 4 20]
  ∧ page (pagination (store (run (handlePageChange mockService state47 4) state47)))
    = 4
  ∧ store (run (handlePageChange mockService state47 4) state47) ≠ state47.
Proof.
  repeat split. intros H.
  apply (f_equal (λ s, page (pagination s))) in H. vm_compute in H. discriminate.
Qed.

Lemma handlePageChange_reloads_any_page_witness :
  page (pagination (store (run (handlePageChange mockService state47 4) state47)))
  = 4
  ∧ ∀ p, p ∈ PageWindow.clickablePages 1 3 false → 1 ≤ p ≤ 3.
Proof.
  pose proof (handlePageChange_reloads_any_page mockService state47 state47 4)
    as [_ [Hok Hgate]].
  split.
  - apply (Hok (MockApi.mockApiCall MockApi.isoTime noFilters 4 20)). reflexivity.
  - intros p. apply (Hgate 3 p); [reflexivity | cbn; lia].
Defined.

Lemma loadOrders_snapshot_replace_witness :
  store (run (loadOrders mockService noFilters 1 20) state47) =
    {| orders := r_orders (MockApi.mockApiCall MockApi.isoTime noFilters 1 20);
       loading := false; error := None; filters := noFilters;
       pagination := {| page := 1; page_size := 20; total := 4 |} |}
  ∧ orders (store (run (loadOrders offlineService noFilters 1 20) state47))
    = MockApi.mockOrders.
Proof.
  split.
  - apply (proj1 (loadOrders_snapshot_replace mockService state47 noFilters 1 20)
             (MockApi.mockApiCall MockApi.isoTime noFilters 1 20)).
    reflexivity.
  - apply (proj2 (loadOrders_snapshot_replace offlineService state47 noFilters 1 20)).
    reflexivity.
Defined.

(** C7 as stated fails: a change of page size whose reload fails leaves
    the list on its previous page, here page 3. *)
Lemma handlePageSizeChange_failed_reload_counterexample :
  getOrders offlineService (filters statePage3) 1 50 = Rejected
  ∧ page (pagination (store (run (handlePageSizeChange offlineService statePage3 50)
                               statePage3))) = 3.
Proof. split; reflexivity. Qed.

Lemma page_reset_follows_reload_witness :
  page (pagination (store (run (handleFiltersChange offlineService statePage3
                                  (priceFilter 10000 20000)) statePage3))) = 1
  ∧ pagination (store (run (handlePageSizeChange offlineService statePage3 50)
                         statePage3)) = pagination statePage3.
Proof.
  pose proof (page_reset_follows_reload offlineService statePage3 statePage3
                (priceFilter 10000 20000) 50) as [[_ [_ [Hf _]]] [_ [_ Hs]]].
  split; [apply Hf | apply Hs]; reflexivity.
Defined.

Lemma edit_success_touches_only_target_witness :
  pointwiseEdit 2 (λ o, withStatus o StatusInProgress) cachedNew
    (orders (store (run (handleStatusChange mockService 2 StatusInProgress)
                      stateNew)))
  ∧ noReload (log (run (handleStatusChange mockService 2 StatusInProgress)
                     stateNew)).
Proof.
  assert (Hin : ∃ o, o ∈ orders stateNew ∧ o_id o = 2).
  { exists (withStatus (default freeOrder (MockApi.mockOrders !! 1%nat)) StatusNew).
    split; [| reflexivity]. cbn. rewrite !elem_of_cons. auto. }
  destruct (edit_success_touches_only_target mockService MockApi.mockUsers
              stateNew 2 Hin) as [Hstatus _].
  destruct (Hstatus StatusInProgress _ eq_refl)
    as [_ [Hpoint [_ [_ [Hno _]]]]].
  split; [exact Hpoint | exact Hno].
Defined.

(** The scenario of the specification: order 2 goes from "новый" to
    "в работе". *)
Example set_status_scenario :
  (λ o, (o_id o, o_status o)) <$>
    orders (store (run (handleStatusChange mockService 2 StatusInProgress)
                     stateNew))
  = [(1, StatusNew); (2, StatusInProgress); (3, StatusNew); (4, StatusNew)].
Proof. reflexivity. Qed.

Lemma edit_failure_leaves_state_witness :
  run (handleStatusChange offlineService 2 StatusInProgress) state47 =
    {| store := state47;
       log := [ApiUpdateOrderStatus 2 StatusInProgress;
               ToastError "Не удалось изменить статус заказа"] |}.
Proof.
  apply (proj1 (edit_failure_leaves_state offlineService MockApi.mockUsers state47 2)).
  reflexivity.
Defined.

End OrdersListFacts.

(** ** More on the pagination control *)

Module PageWindowMore.

Import PageWindow PageLabel PageWindowFacts.

Lemma last_numbers_seqZ (m : Z) (n : nat) :
  last (PageNumber <$> seqZ m (Z.of_nat (S n))) = Some (PageNumber (m + Z.of_nat n)).
Proof.
  rewrite seqZ_S, fmap_app. cbn [fmap list_fmap]. apply last_snoc.
Qed.

(** X1.  Whenever the current page [C] lies in [1..T], the window starts
    with page 1, ends with page [T] and shows [C] itself. *)
Theorem window_shows_first_current_last (C T : Z) :
  1 ≤ C ≤ T →
  head (getPageNumbers C T) = Some (PageNumber 1)
  ∧ last (getPageNumbers C T) = Some (PageNumber T)
  ∧ C ∈ concretePages (getPageNumbers C T).
Proof.
  intros HC. rewrite getPageNumbers_refines. unfold pageWindowSpec.
  repeat case_decide.
  - split; [| split].
    + rewrite (seqZ_cons 1 T) by lia. reflexivity.
    + replace T with (Z.of_nat (S (Z.to_nat (T - 1)))) at 1 by lia.
      rewrite last_numbers_seqZ. do 2 f_equal. lia.
    + rewrite concretePages_numbers, elem_of_seqZ. lia.
  - repeat split. cbn. rewrite !elem_of_cons. lia.
  - repeat split. cbn. rewrite !elem_of_cons. lia.
  - repeat split. cbn. rewrite !elem_of_cons. lia.
Qed.

Lemma window_shows_first_current_last_witness :
  head (getPageNumbers 5 10) = Some (PageNumber 1)
  ∧ last (getPageNumbers 5 10) = Some (PageNumber 10)
  ∧ 5 ∈ concretePages (getPageNumbers 5 10).
Proof. apply (window_shows_first_current_last 5 10). lia. Defined.

(** X2.  Whatever [C] and [T] are, the window has at most 5 page numbers
    ([maxVisible]) and at most 7 entries; for [0 <= T <= 5] it has exactly
    [T] entries. *)
Theorem window_size_bounded (C T : Z) :
  (length (concretePages (getPageNumbers C T)) ≤ 5)%nat
  ∧ (length (getPageNumbers C T) ≤ 7)%nat
  ∧ (0 ≤ T ≤ maxVisible → Z.of_nat (length (getPageNumbers C T)) = T).
Proof.
  rewrite getPageNumbers_refines. unfold pageWindowSpec, maxVisible.
  repeat case_decide; cbn; try lia.
  rewrite concretePages_numbers, length_fmap, length_seqZ. lia.
Qed.

Lemma window_size_bounded_witness :
  Z.of_nat (length (getPageNumbers 2 4)) = 4.
Proof. apply (window_size_bounded 2 4). unfold maxVisible. lia. Defined.

(** X3.  Whatever [C] and [T] are, two page numbers that stand side by
    side in the window are consecutive pages, and a text entry between two
    page numbers stands for at least one page left out. *)
Theorem window_gaps_are_real (C T : Z) (i : nat) (a b : Z) (txt : string) :
  (getPageNumbers C T !! i = Some (PageNumber a) →
   getPageNumbers C T !! S i = Some (PageNumber b) → b = a + 1)
  ∧ (getPageNumbers C T !! i = Some (PageNumber a) →
     getPageNumbers C T !! S i = Some (PageText txt) →
     getPageNumbers C T !! S (S i) = Some (PageNumber b) → a + 1 < b).
Proof.
  rewrite getPageNumbers_refines. unfold pageWindowSpec.
  repeat case_decide.
  - split.
    + rewrite !list_lookup_fmap. intros Ha Hb.
      destruct (seqZ 1 T !! i) as [x |] eqn:Hx; [| discriminate].
      destruct (seqZ 1 T !! S i) as [y |] eqn:Hy; [| discriminate].
      apply lookup_seqZ in Hx, Hy. cbn in Ha, Hb. simplify_eq. lia.
    + rewrite !list_lookup_fmap. intros _ Hb.
      destruct (seqZ 1 T !! S i); discriminate.
  - split; do 7 (try destruct i as [| i]); cbn; intros; simplify_eq; lia.
  - split; do 7 (try destruct i as [| i]); cbn; intros; simplify_eq; lia.
  - split; do 8 (try destruct i as [| i]); cbn; intros; simplify_eq; lia.
Qed.

Lemma window_gaps_are_real_witness :
  getPageNumbers 1 6 !! 3%nat = Some (PageNumber 4)
  ∧ getPageNumbers 1 6 !! 5%nat = Some (PageNumber 6)
  ∧ 4 + 1 < 6.
Proof.
  split; [reflexivity | split; [reflexivity |]].
  apply (proj2 (window_gaps_are_real 1 6 3 4 6 "...")); reflexivity.
Defined.

(** X4.  For a page number and a page size of at least 1 and a
    non-negative item count, the "shown a-b of n" label satisfies
    [0 <= a <= b <= n] and spans fewer than [pageSize] steps; it reads 0-0
    for an empty list, and on a page that has items [a] is the index of the
    page's first item. *)
Theorem item_label_bounds (currentPage pageSize totalItems : Z) :
  1 ≤ currentPage → 1 ≤ pageSize → 0 ≤ totalItems →
  0 ≤ startItem currentPage pageSize totalItems
  ∧ startItem currentPage pageSize totalItems ≤ endItem currentPage pageSize totalItems
  ∧ endItem currentPage pageSize totalItems ≤ totalItems
  ∧ endItem currentPage pageSize totalItems
    - startItem currentPage pageSize totalItems < pageSize
  ∧ (totalItems = 0 →
       startItem currentPage pageSize totalItems = 0
       ∧ endItem currentPage pageSize totalItems = 0)
  ∧ ((currentPage - 1) * pageSize < totalItems →
       startItem currentPage pageSize totalItems = (currentPage - 1) * pageSize + 1).
Proof.
  intros Hp Hs Ht. unfold startItem, endItem.
  assert (0 ≤ (currentPage - 1) * pageSize) by nia.
  assert (currentPage * pageSize = (currentPage - 1) * pageSize + pageSize) by lia.
  repeat split; lia.
Qed.

Lemma item_label_bounds_witness :
  startItem 3 20 47 = 41 ∧ endItem 3 20 47 = 47.
Proof.
  pose proof (item_label_bounds 3 20 47) as H.
  destruct H as [_ [_ [_ [_ [_ H]]]]]; try lia.
  split; [rewrite H; lia | reflexivity].
Defined.

End PageWindowMore.

(** ** More on the mock order query *)

Module MockApiMore.

Import MockApi Reference ReferenceMore MockApiFacts PageLabel.

(** *** Arrays *)

(** For a page number of at least 1 and a non-negative page size, [slice]
    is "skip the earlier pages, take one page". *)
Lemma slice_page {A} (l : list A) (p ps : Z) :
  1 ≤ p → 0 ≤ ps →
  JS.slice l ((p - 1) * ps) ((p - 1) * ps + ps)
  = take (Z.to_nat ps) (drop (Z.to_nat ((p - 1) * ps)) l).
Proof.
  intros Hp Hps. unfold JS.slice, JS.relativeIndex.
  assert (Hstart : 0 ≤ (p - 1) * ps) by nia.
  generalize dependent ((p - 1) * ps). intros start Hstart.
  destruct (start <? 0) eqn:E1; [apply Z.ltb_lt in E1; lia |].
  destruct (start + ps <? 0) eqn:E2; [apply Z.ltb_lt in E2; lia |].
  destruct (decide (Z.of_nat (length l) ≤ start)) as [Hge | Hlt].
  - rewrite (Z.min_r start) by lia. rewrite !drop_ge by lia.
    now rewrite !take_nil.
  - rewrite (Z.min_l start) by lia.
    destruct (decide (start + ps ≤ Z.of_nat (length l))) as [Hin | Hout].
    + rewrite Z.min_l by lia. do 2 f_equal. lia.
    + rewrite Z.min_r by lia.
      rewrite !take_ge; [reflexivity | rewrite length_drop; lia ..].
Qed.

Lemma List_filter_sublist {A} (p : A → bool) (l : list A) :
  List.filter p l `sublist_of` l.
Proof.
  induction l as [| x l IH]; cbn; [constructor |].
  destruct (p x); now constructor.
Qed.

Lemma slice_sublist {A} (l : list A) (a b : Z) : JS.slice l a b `sublist_of` l.
Proof.
  unfold JS.slice. etransitivity; [apply sublist_take | apply sublist_drop].
Qed.

Lemma StronglySorted_sublist {A} (R : A → A → Prop) (l k : list A) :
  l `sublist_of` k → StronglySorted R k → StronglySorted R l.
Proof.
  induction 1 as [| x l k Hsub IH | x l k Hsub IH]; intros Hk.
  - constructor.
  - apply StronglySorted_inv in Hk as [Hk Hx]. constructor; [now apply IH |].
    rewrite Forall_forall in Hx |- *. intros y Hy.
    apply Hx. eapply elem_of_sublist; eassumption.
  - apply StronglySorted_inv in Hk as [Hk _]. now apply IH.
Qed.

Section WithDate.

Variable getTime : string → option Z.

(** The list a query pages through: filtered, then sorted. *)
Lemma mockApiCallOn_page (data : list Order) (f : OrderFilters) (p ps : Z) :
  1 ≤ p → 0 ≤ ps →
  r_orders (mockApiCallOn getTime data f p ps)
  = take (Z.to_nat ps)
      (drop (Z.to_nat ((p - 1) * ps))
         (JS.sort (byCreatedDesc getTime) (applyFilters getTime data f))).
Proof.
  intros Hp Hps. unfold mockApiCallOn. cbn [r_orders]. now apply slice_page.
Qed.

(** *** Pagination *)

Lemma page_length_formula (data : list Order) (f : OrderFilters) (p ps : Z) :
  1 ≤ p → 0 ≤ ps →
  Z.of_nat (length (r_orders (mockApiCallOn getTime data f p ps)))
  = Z.min ps (Z.max 0 (r_total (mockApiCallOn getTime data f p ps) - (p - 1) * ps)).
Proof.
  intros Hp Hps. rewrite mockApiCallOn_page by assumption.
  unfold mockApiCallOn. cbn [r_total].
  rewrite length_take, length_drop.
  assert (0 ≤ (p - 1) * ps) by nia. lia.
Qed.

Lemma page_zero_empty (data : list Order) (f : OrderFilters) (ps : Z) :
  0 ≤ ps → r_orders (mockApiCallOn getTime data f 0 ps) = [].
Proof.
  intros Hps. unfold mockApiCallOn, JS.slice, JS.relativeIndex. cbn [r_orders].
  replace ((0 - 1) * ps + ps) with 0 by lia.
  destruct ((0 - 1) * ps <? 0) eqn:E; cbn [Z.ltb Z.compare].
  - replace (Z.to_nat _) with 0%nat by lia. reflexivity.
  - replace (Z.to_nat (_ - _)) with 0%nat by lia. reflexivity.
Qed.

(** X5.  For a page number of at least 1 and a non-negative page size, the
    page [mockApiCall] returns holds [min(pageSize, max(0, total - (page -
    1) * pageSize))] records, so never more than [pageSize]; on a page that
    starts within the result this is the count the "shown a-b" label of the
    pagination control displays. *)
Theorem mockApiCall_page_length (data : list Order) (f : OrderFilters)
    (pageArg pageSize : Z) :
  1 ≤ pageArg → 0 ≤ pageSize →
  Z.of_nat (length (r_orders (mockApiCallOn getTime data f pageArg pageSize)))
  = Z.min pageSize
      (Z.max 0 (r_total (mockApiCallOn getTime data f pageArg pageSize)
                - (pageArg - 1) * pageSize))
  ∧ Z.of_nat (length (r_orders (mockApiCallOn getTime data f pageArg pageSize)))
    ≤ pageSize
  ∧ ((pageArg - 1) * pageSize
     < r_total (mockApiCallOn getTime data f pageArg pageSize) →
     Z.of_nat (length (r_orders (mockApiCallOn getTime data f pageArg pageSize)))
     = endItem pageArg pageSize
         (r_total (mockApiCallOn getTime data f pageArg pageSize))
       - startItem pageArg pageSize
           (r_total (mockApiCallOn getTime data f pageArg pageSize)) + 1).
Proof.
  intros Hp Hps.
  pose proof (page_length_formula data f pageArg pageSize Hp Hps) as Hlen.
  unfold startItem, endItem.
  assert (0 ≤ (pageArg - 1) * pageSize) by nia.
  assert (pageArg * pageSize = (pageArg - 1) * pageSize + pageSize) by lia.
  repeat split; lia.
Qed.

(** X6.  For a non-negative page size, page 0 is always empty, and so is
    every page that starts at or after the end of the result. *)
Theorem mockApiCall_empty_pages (data : list Order) (f : OrderFilters)
    (pageArg pageSize : Z) :
  0 ≤ pageSize →
  r_orders (mockApiCallOn getTime data f 0 pageSize) = []
  ∧ (1 ≤ pageArg →
     r_total (mockApiCallOn getTime data f pageArg pageSize)
     ≤ (pageArg - 1) * pageSize →
     r_orders (mockApiCallOn getTime data f pageArg pageSize) = []).
Proof.
  intros Hps. split.
  - now apply page_zero_empty.
  - intros Hp Htot. apply length_zero_iff_nil.
    pose proof (page_length_formula data f pageArg pageSize Hp Hps) as H.
    lia.
Qed.

(** X7.  For a non-negative page size, the pages 1 to [n] put one after the
    other are the first [n * pageSize] records of the filtered and sorted
    result; once [n * pageSize] reaches [total] they are the whole result:
    every matching record exactly once, none left out. *)
Theorem mockApiCall_pages_cover (data : list Order) (f : OrderFilters)
    (pageSize : Z) (n : nat) :
  0 ≤ pageSize →
  pagesUpTo getTime data f pageSize n
  = take (n * Z.to_nat pageSize)
      (JS.sort (byCreatedDesc getTime) (applyFilters getTime data f))
  ∧ (r_total (mockApiCallOn getTime data f 1 pageSize) ≤ Z.of_nat n * pageSize →
     pagesUpTo getTime data f pageSize n
     = JS.sort (byCreatedDesc getTime) (applyFilters getTime data f)
     ∧ pagesUpTo getTime data f pageSize n ≡ₚ List.filter (passes getTime f) data).
Proof.
  intros Hps.
  assert (Hpre : pagesUpTo getTime data f pageSize n
                 = take (n * Z.to_nat pageSize)
                     (JS.sort (byCreatedDesc getTime) (applyFilters getTime data f))).
  { unfold pagesUpTo. induction n as [| n IH]; [reflexivity |].
    rewrite seq_S, fmap_app, join_app, IH. cbn [fmap list_fmap mjoin list_join].
    rewrite app_nil_r, mockApiCallOn_page by lia.
    replace (Z.to_nat ((Z.of_nat (1 + n) - 1) * pageSize))
      with (n * Z.to_nat pageSize)%nat by nia.
    rewrite take_take_drop. f_equal. lia. }
  split; [exact Hpre |].
  intros Hall. rewrite Hpre. unfold mockApiCallOn in Hall. cbn [r_total] in Hall.
  rewrite take_ge by nia.
  split; [reflexivity |]. now rewrite sort_Permutation, applyFilters_passes.
Qed.

(** X8.  [mockApiCall] never invents or repeats a record: the returned
    page is, up to order, a sub-list of the table (so distinct records stay
    distinct), and [total] is at most the size of the table and the same
    for every page and page size. *)
Theorem mockApiCall_sublist_of_table (data : list Order) (f : OrderFilters)
    (pageArg pageSize pageArg' pageSize' : Z) :
  r_orders (mockApiCallOn getTime data f pageArg pageSize) ⊆+ data
  ∧ (NoDup data → NoDup (r_orders (mockApiCallOn getTime data f pageArg pageSize)))
  ∧ r_total (mockApiCallOn getTime data f pageArg pageSize)
    ≤ Z.of_nat (length data)
  ∧ r_total (mockApiCallOn getTime data f pageArg pageSize)
    = r_total (mockApiCallOn getTime data f pageArg' pageSize').
Proof.
  assert (Hsub : r_orders (mockApiCallOn getTime data f pageArg pageSize) ⊆+ data).
  { unfold mockApiCallOn. cbn [r_orders].
    etransitivity; [apply sublist_submseteq, slice_sublist |].
    rewrite sort_Permutation, applyFilters_passes.
    apply sublist_submseteq, List_filter_sublist. }
  split; [exact Hsub | split; [| split]].
  - intros Hnd. unfold mockApiCallOn. cbn [r_orders].
    eapply sublist_NoDup; [| apply slice_sublist].
    rewrite sort_Permutation, applyFilters_passes.
    eapply sublist_NoDup; [exact Hnd | apply List_filter_sublist].
  - rewrite mockApiCallOn_total.
    pose proof (List.filter_length_le (passes getTime f) data). lia.
  - now rewrite !mockApiCallOn_total.
Qed.

(** *** Ordering *)

Lemma insertBy_newest_first (x : Order) (l : list Order) :
  is_Some (getTime (o_created_at x)) →
  Forall (λ o, is_Some (getTime (o_created_at o))) l →
  StronglySorted (newerOrSame getTime) l →
  StronglySorted (newerOrSame getTime) (JS.insertBy (byCreatedDesc getTime) x l).
Proof.
  intros [tx Hx] Hval Hs. induction Hs as [| y l Hs IH Hy]; cbn [JS.insertBy].
  - repeat constructor.
  - apply Forall_cons in Hval as [[ty Hty] Hval].
    unfold byCreatedDesc at 1. rewrite Hty, Hx.
    destruct (0 <? ty - tx) eqn:E.
    + apply Z.ltb_lt in E. constructor; [now apply IH |].
      rewrite insertBy_Permutation. constructor; [| exact Hy].
      exists ty, tx. repeat split; [assumption .. | lia].
    + apply Z.ltb_ge in E. constructor; [now constructor |].
      constructor; [exists tx, ty; repeat split; [assumption .. | lia] |].
      rewrite Forall_forall in Hy |- *. intros z Hz.
      destruct (Hy z Hz) as [ty' [tz [Hty' [Htz Hle]]]].
      exists tx, tz. repeat split; [assumption .. |].
      rewrite Hty in Hty'. injection Hty' as <-. lia.
Qed.

Lemma sort_newest_first (l : list Order) :
  Forall (λ o, is_Some (getTime (o_created_at o))) l →
  StronglySorted (newerOrSame getTime) (JS.sort (byCreatedDesc getTime) l).
Proof.
  unfold JS.sort. induction 1 as [| x l Hx Hl IH]; cbn [foldr]; [constructor |].
  apply insertBy_newest_first; [exact Hx | | exact IH].
  fold (JS.sort (byCreatedDesc getTime) l). now rewrite sort_Permutation.
Qed.

(** X9.  When every record of the table has a valid creation date, every
    page [mockApiCall] returns is ordered newest first: each record was
    created no earlier than all the records after it. *)
Theorem mockApiCall_newest_first (data : list Order) (f : OrderFilters)
    (pageArg pageSize : Z) :
  Forall (λ o, is_Some (getTime (o_created_at o))) data →
  StronglySorted (newerOrSame getTime)
    (r_orders (mockApiCallOn getTime data f pageArg pageSize)).
Proof.
  intros Hval. unfold mockApiCallOn. cbn [r_orders].
  eapply StronglySorted_sublist; [apply slice_sublist |].
  apply sort_newest_first. rewrite applyFilters_passes.
  rewrite Forall_forall in Hval |- *. intros o Ho.
  apply elem_of_List_filter in Ho. now apply Hval.
Qed.

(** *** The other criteria *)

(** X10.  A filter whose fields are all absent or falsy (an empty string,
    the number 0) constrains nothing: the filter chain returns the table as
    it is, [total] is the size of the table, and the first page, when it
    covers the table, holds every record. *)
Theorem mockApiCall_falsy_is_absent (data : list Order) (f : OrderFilters)
    (pageArg pageSize : Z) :
  unconstrained f →
  applyFilters getTime data f = data
  ∧ r_total (mockApiCallOn getTime data f pageArg pageSize) = Z.of_nat (length data)
  ∧ (pageArg = 1 → Z.of_nat (length data) ≤ pageSize →
     r_orders (mockApiCallOn getTime data f pageArg pageSize) ≡ₚ data).
Proof.
  intros Hf.
  assert (Hid : applyFilters getTime data f = data).
  { destruct f as [st ph ex df dt mn mx]. unfold unconstrained in Hf. cbn in Hf.
    destruct Hf as [-> [[-> | ->] [[-> | ->] [[-> | ->] [[-> | ->]
                    [[-> | ->] [-> | ->]]]]]]]; reflexivity. }
  split; [exact Hid | split].
  - unfold mockApiCallOn. cbn [r_total]. now rewrite sort_Permutation, Hid.
  - intros -> Hsize. rewrite mockApiCallOn_first_page by exact Hsize.
    now rewrite <- applyFilters_passes, Hid.
Qed.

Lemma truthyField_status (s : OrderStatus) :
  truthyField (λ s, JS.truthyString (statusText s)) (Some s) = Some s.
Proof. destruct s; reflexivity. Qed.

Lemma truthyField_string (v : string) :
  v ≠ "" → truthyField JS.truthyString (Some v) = Some v.
Proof. intros Hv. cbn. now rewrite (proj2 (truthyString_true v) Hv). Qed.

(** X11.  With a [status] criterion every returned order has that status;
    with a non-zero [executor_id] criterion every returned order is
    assigned to that executor, so unassigned orders are left out. *)
Theorem mockApiCall_status_and_executor (data : list Order) (f : OrderFilters)
    (pageArg pageSize : Z) (o : Order) :
  o ∈ r_orders (mockApiCallOn getTime data f pageArg pageSize) →
  (∀ s, f_status f = Some s → o_status o = s)
  ∧ (∀ e, f_executor_id f = Some e → e ≠ 0 → o_executor_id o = Some e).
Proof.
  intros Ho. apply mockApiCallOn_orders_subseteq, elem_of_List_filter in Ho.
  destruct Ho as [_ Hpass]. unfold passes in Hpass.
  rewrite !andb_true_iff in Hpass.
  destruct Hpass as [[[[[[Hs _] He] _] _] _] _]. split.
  - intros s Hf. rewrite Hf, truthyField_status in Hs. cbn in Hs.
    now apply bool_decide_eq_true in Hs.
  - intros e Hf He0. rewrite Hf, truthyField_number in He by exact He0.
    cbn in He. now apply bool_decide_eq_true in He.
Qed.

(** X12.  With a non-empty [date_from] (respectively [date_to]) criterion
    every returned order has a valid delivery date that is not before
    (respectively not after) the bound, the bound included; when the bound
    itself is not a valid date, nothing is returned and [total] is 0. *)
Theorem mockApiCall_date_range (data : list Order) (f : OrderFilters)
    (pageArg pageSize : Z) (d : string) :
  d ≠ "" →
  (f_date_from f = Some d →
     ∀ o, o ∈ r_orders (mockApiCallOn getTime data f pageArg pageSize) →
       ∃ t td, getTime (o_delivery_date o) = Some t
               ∧ getTime d = Some td ∧ td ≤ t)
  ∧ (f_date_to f = Some d →
     ∀ o, o ∈ r_orders (mockApiCallOn getTime data f pageArg pageSize) →
       ∃ t td, getTime (o_delivery_date o) = Some t
               ∧ getTime d = Some td ∧ t ≤ td)
  ∧ (f_date_from f = Some d ∨ f_date_to f = Some d → getTime d = None →
     r_orders (mockApiCallOn getTime data f pageArg pageSize) = []
     ∧ r_total (mockApiCallOn getTime data f pageArg pageSize) = 0).
Proof.
  intros Hd.
  assert (Hfrom : f_date_from f = Some d → ∀ o, passes getTime f o = true →
            ∃ t td, getTime (o_delivery_date o) = Some t
                    ∧ getTime d = Some td ∧ td ≤ t).
  { intros Hf o. unfold passes. rewrite !andb_true_iff, Hf.
    rewrite truthyField_string by exact Hd. cbn [constrained from_option].
    intros [[[[_ H] _] _] _]. unfold dateGe in H.
    destruct (getTime (o_delivery_date o)) as [t |]; [| discriminate].
    destruct (getTime d) as [td |]; [| discriminate].
    apply Z.leb_le in H. eauto. }
  assert (Hto : f_date_to f = Some d → ∀ o, passes getTime f o = true →
            ∃ t td, getTime (o_delivery_date o) = Some t
                    ∧ getTime d = Some td ∧ t ≤ td).
  { intros Hf o. unfold passes. rewrite !andb_true_iff, Hf.
    rewrite truthyField_string by exact Hd. cbn [constrained from_option].
    intros [[[_ H] _] _]. unfold dateLe in H.
    destruct (getTime (o_delivery_date o)) as [t |]; [| discriminate].
    destruct (getTime d) as [td |]; [| discriminate].
    apply Z.leb_le in H. eauto. }
  split; [| split].
  - intros Hf o Ho.
    apply mockApiCallOn_orders_subseteq, elem_of_List_filter in Ho.
    apply (Hfrom Hf o), Ho.
  - intros Hf o Ho.
    apply mockApiCallOn_orders_subseteq, elem_of_List_filter in Ho.
    apply (Hto Hf o), Ho.
  - intros Hf Hbad.
    assert (Hnone : List.filter (passes getTime f) data = []).
    { destruct (List.filter (passes getTime f) data) as [| o l] eqn:E;
        [reflexivity | exfalso].
      assert (Ho : o ∈ List.filter (passes getTime f) data)
        by (rewrite E; apply list_elem_of_here).
      apply elem_of_List_filter in Ho as [_ Ho].
      destruct Hf as [Hf | Hf];
        [destruct (Hfrom Hf o Ho) as [t [td [_ [Htd _]]]]
        | destruct (Hto Hf o Ho) as [t [td [_ [Htd _]]]]]; congruence. }
    split.
    + pose proof (mockApiCallOn_orders_subseteq getTime data f pageArg pageSize)
        as Hsub.
      rewrite Hnone in Hsub.
      destruct (r_orders (mockApiCallOn getTime data f pageArg pageSize))
        as [| o l]; [reflexivity |].
      specialize (Hsub o (list_elem_of_here _ _)). now apply elem_of_nil in Hsub.
    + now rewrite mockApiCallOn_total, Hnone.
Qed.

End WithDate.

(** *** Worked scenarios *)

Import Fixtures.

Lemma mockApiCall_page_length_witness :
  Z.of_nat (length (r_orders (mockApiCall isoTime noFilters 2 3))) = 1.
Proof.
  pose proof (mockApiCall_page_length isoTime mockOrders noFilters 2 3) as H.
  destruct H as [H _]; [lia | lia |]. exact H.
Defined.

Lemma mockApiCall_empty_pages_witness :
  r_orders (mockApiCall isoTime noFilters 0 3) = []
  ∧ r_orders (mockApiCall isoTime noFilters 3 3) = [].
Proof.
  pose proof (mockApiCall_empty_pages isoTime mockOrders noFilters 3 3) as H.
  destruct H as [H0 H3]; [lia |].
  split; [exact H0 | apply H3; [lia | vm_compute; discriminate]].
Defined.

Lemma mockApiCall_pages_cover_witness :
  pagesUpTo isoTime mockOrders noFilters 3 2
  = JS.sort (byCreatedDesc isoTime) (applyFilters isoTime mockOrders noFilters).
Proof.
  pose proof (mockApiCall_pages_cover isoTime mockOrders noFilters 3 2) as H.
  destruct H as [_ H]; [lia |]. apply H. vm_compute. discriminate.
Defined.

Lemma mockApiCall_sublist_of_table_witness :
  NoDup (r_orders (mockApiCall isoTime noFilters 1 3)).
Proof.
  apply (mockApiCall_sublist_of_table isoTime mockOrders noFilters 1 3 1 3).
  apply NoDup_fmap_1 with (f := o_id).
  apply (bool_decide_unpack (NoDup (o_id <$> mockOrders))). vm_compute. exact I.
Defined.

Lemma mockApiCall_newest_first_witness :
  StronglySorted (newerOrSame isoTime) (r_orders (mockApiCall isoTime noFilters 1 20)).
Proof.
  apply (mockApiCall_newest_first isoTime mockOrders noFilters 1 20).
  repeat constructor; cbn; eauto.
Defined.

Lemma mockApiCall_falsy_is_absent_witness :
  applyFilters isoTime mockOrders
    (mkFilters None (Some "") (Some 0) None None (Some 0) None) = mockOrders.
Proof.
  apply (mockApiCall_falsy_is_absent isoTime mockOrders
           (mkFilters None (Some "") (Some 0) None None (Some 0) None) 1 20).
  unfold unconstrained. cbn. tauto.
Defined.

Lemma mockApiCall_status_and_executor_witness :
  o_status (default freeOrder (mockOrders !! 2%nat)) = StatusReady.
Proof.
  apply (mockApiCall_status_and_executor isoTime mockOrders
           (mkFilters (Some StatusReady) None None None None None None) 1 20
           (default freeOrder (mockOrders !! 2%nat)));
    [vm_compute; apply list_elem_of_here | reflexivity].
Defined.

Lemma mockApiCall_date_range_witness :
  r_orders (mockApiCall isoTime
              (mkFilters None None None (Some "завтра") None None None) 1 20) = [].
Proof.
  apply (mockApiCall_date_range isoTime mockOrders
           (mkFilters None None None (Some "завтра") None None None) 1 20 "завтра");
    [discriminate | left; reflexivity | reflexivity].
Defined.

(** With a negative page number [slice] counts both indices from the end
    of the result: over the four mock records, page -1 of size 3 is the
    single record before the last three. *)
Example mockApiCall_negative_page :
  o_id <$> r_orders (mockApiCall isoTime noFilters (-1) 3) = [1].
Proof. reflexivity. Qed.

End MockApiMore.

(** ** The query parameters *)

Module ApiClientFacts.

Import JS MockApi Reference ReferenceMore ApiClient MockApiFacts MockApiMore.

(** [`${n}`] tells integers apart. *)
Lemma numberToString_inj (n m : Z) : numberToString n = numberToString m → n = m.
Proof.
  unfold numberToString. intros H. apply DecimalZ.to_int_inj.
  assert (Hnorm : ∀ z, NilZero.int_of_string (NilZero.string_of_int (Z.to_int z))
                       = Some (Z.to_int z)).
  { intros z. apply NilZero.isi; intros E;
      pose proof (DecimalZ.to_of (Z.to_int z)) as Hz;
      rewrite DecimalZ.of_to, E in Hz; discriminate. }
  pose proof (Hnorm n) as Hn. rewrite H, Hnorm in Hn. congruence.
Qed.

Lemma statusText_inj (s t : OrderStatus) : statusText s = statusText t → s = t.
Proof. destruct s, t; cbn; intros H; try reflexivity; discriminate. Qed.

(** The parameters, criterion by criterion. *)
Lemma getOrdersParams_segments (f : OrderFilters) (p ps : Z) :
  getOrdersParams f p ps =
  [("page", numberToString p); ("page_size", numberToString ps)]
  ++ optionalParam "status"
       (statusText <$> truthyField (λ s, truthyString (statusText s)) (f_status f))
  ++ optionalParam "client_phone" (truthyField truthyString (f_client_phone f))
  ++ optionalParam "executor_id"
       (numberToString <$> truthyField truthyNumber (f_executor_id f))
  ++ optionalParam "date_from" (truthyField truthyString (f_date_from f))
  ++ optionalParam "date_to" (truthyField truthyString (f_date_to f))
  ++ optionalParam "min_price"
       (numberToString <$> truthyField truthyNumber (f_min_price f))
  ++ optionalParam "max_price"
       (numberToString <$> truthyField truthyNumber (f_max_price f)).
Proof.
  unfold getOrdersParams.
  destruct (truthyField _ (f_status f)), (truthyField _ (f_client_phone f)),
    (truthyField _ (f_executor_id f)), (truthyField _ (f_date_from f)),
    (truthyField _ (f_date_to f)), (truthyField _ (f_min_price f)),
    (truthyField _ (f_max_price f)); reflexivity.
Qed.

Lemma optionalParam_keys (key : string) (value : option string) :
  (optionalParam key value).*1 = criterion key value.
Proof. destruct value; reflexivity. Qed.







Lemma optionalParam_app_inj (key : string) (v v' : option string)
    (rest rest' : list (string * string)) :
  key ∉ rest.*1 → key ∉ rest'.*1 →
  optionalParam key v ++ rest = optionalParam key v' ++ rest' →
  v = v' ∧ rest = rest'.
Proof.
  intros Hr Hr' H. destruct v as [x |], v' as [x' |]; cbn in H.
  - injection H as -> ->. split; reflexivity.
  - exfalso. apply Hr'. rewrite <- H. cbn. apply list_elem_of_here.
  - exfalso. apply Hr. rewrite H. cbn. apply list_elem_of_here.
  - split; [reflexivity | exact H].
Qed.

Lemma fmap_Some_inj {A B} (g : A → B) (a b : option A) :
  (∀ x y, g x = g y → x = y) → g <$> a = g <$> b → a = b.
Proof.
  intros Hg H. destruct a, b; cbn in H; try discriminate; [| reflexivity].
  injection H as H. f_equal. now apply Hg.
Qed.

(** A parameter name does not occur among the parameters of later
    criteria. *)
Ltac solve_key_notin :=
  rewrite ?fmap_app, ?optionalParam_keys, ?fmap_nil;
  repeat match goal with
         | |- context [criterion _ ?v] =>
             lazymatch v with
             | Some _ => fail
             | None => fail
             | _ => destruct v
             end
         end;
  cbn; rewrite ?elem_of_cons, ?elem_of_nil;
  let Hin := fresh "Hin" in
  intros Hin; decompose [or] Hin; first [discriminate | contradiction].

Ltac peel_param H Hv :=
  apply optionalParam_app_inj in H as [Hv H]; [| solve_key_notin ..].

(** X14.  The parameters carry everything the mock query looks at: two
    requests with the same parameters get the same response from
    [mockApiCall], whatever else differs in their filters. *)
Theorem same_query_same_answer (getTime : string → option Z) (data : list Order)
    (f f' : OrderFilters) (p p' ps ps' : Z) :
  getOrdersParams f p ps = getOrdersParams f' p' ps' →
  mockApiCallOn getTime data f p ps = mockApiCallOn getTime data f' p' ps'.
Proof.
  intros H. rewrite !getOrdersParams_segments in H. cbn [app] in H.
  injection H as Hp Hps H.
  apply numberToString_inj in Hp, Hps. subst p' ps'.
  peel_param H Hstatus. peel_param H Hphone. peel_param H Hexec.
  peel_param H Hfrom. peel_param H Hto. peel_param H Hmin.
  rewrite <- (app_nil_r (optionalParam "max_price" _)) in H.
  rewrite <- (app_nil_r (optionalParam "max_price"
               (numberToString <$> truthyField truthyNumber (f_max_price f')))) in H.
  peel_param H Hmax.
  apply (fmap_Some_inj _ _ _ statusText_inj) in Hstatus.
  apply (fmap_Some_inj _ _ _ numberToString_inj) in Hexec, Hmin, Hmax.
  unfold mockApiCallOn, applyFilters. cbv zeta.
  now rewrite Hstatus, Hphone, Hexec, Hfrom, Hto, Hmin, Hmax.
Qed.

Lemma same_query_same_answer_witness :
  mockApiCall isoTime (mkFilters None (Some "") None None None (Some 0) None) 1 20
  = mockApiCall isoTime noFilters 1 20.
Proof.
  apply (same_query_same_answer isoTime mockOrders
           (mkFilters None (Some "") None None None (Some 0) None) noFilters
           1 1 20 20).
  reflexivity.
Defined.

End ApiClientFacts.

(** ** The filter form *)

Module FilterFormFacts.

Import JS MockApi Reference ReferenceMore FilterForm MockApiFacts.

Lemma truthyField_not_falsy_number (v : option Z) :
  truthyField truthyNumber v ≠ Some 0.
Proof.
  destruct v as [n |]; cbn; [| discriminate].
  destruct (truthyNumber n) eqn:E; [| discriminate].
  apply truthyNumber_true in E. congruence.
Qed.

Lemma truthyField_not_falsy_string (v : option string) :
  truthyField truthyString v ≠ Some "".
Proof.
  destruct v as [x |]; cbn; [| discriminate].
  destruct (truthyString x) eqn:E; [| discriminate].
  apply truthyString_true in E. congruence.
Qed.

Lemma handleFilterChange_normalized (prev : OrderFilters) (c : FilterChange) :
  normalized prev → normalized (handleFilterChange prev c).
Proof.
  unfold normalized. intros [Hph [Hex [Hdf [Hdt [Hmn Hmx]]]]].
  destruct c; cbn [handleFilterChange f_client_phone f_executor_id f_date_from
                   f_date_to f_min_price f_max_price];
    repeat split;
    first [assumption | apply truthyField_not_falsy_number
          | apply truthyField_not_falsy_string].
Qed.

(** X15.  Starting from filters without falsy values (the form starts
    empty), whatever the user types, selects, searches or resets, the form
    never holds and never submits a criterion set to 0 or to the empty
    string: such a value is stored as absent. *)
Theorem form_never_submits_falsy (start : OrderFilters) (actions : list FormAction) :
  normalized start →
  normalized (formRun start actions).1
  ∧ Forall normalized (formRun start actions).2.
Proof.
  revert start. induction actions as [| a actions IH]; intros start Hstart.
  - split; [exact Hstart | constructor].
  - cbn [formRun].
    assert (Hnone : normalized noFilters)
      by (unfold normalized; cbn; repeat split; discriminate).
    destruct a as [c | |]; cbn [formStep].
    + destruct (IH (handleFilterChange start c)
                  (handleFilterChange_normalized start c Hstart)) as [H1 H2].
      destruct (formRun (handleFilterChange start c) actions). now split.
    + destruct (IH start Hstart) as [H1 H2].
      destruct (formRun start actions). cbn. split; [exact H1 |].
      constructor; assumption.
    + destruct (IH noFilters Hnone) as [H1 H2].
      destruct (formRun noFilters actions). cbn. split; [exact H1 |].
      constructor; assumption.
Qed.

Lemma form_never_submits_falsy_witness :
  Forall normalized
    (formRun noFilters [Change (ChangeMinPrice (Some 0));
                        Change (ChangeClientPhone ""); Search]).2.
Proof.
  apply (form_never_submits_falsy noFilters).
  unfold normalized. cbn. repeat split; discriminate.
Defined.

End FilterFormFacts.

(** ** The status badge *)

Module StatusBadgeFacts.

Import StatusBadge.

(** X16.  A click on an editable badge with a handler passes on a status
    different from the one shown, namely the next one in the order new, in
    progress, ready, delivered, new again, so that four clicks in a row
    come back to where they started; a badge that is not editable or has no
    handler ignores the click. *)
Theorem badge_click_cycles (status : OrderStatus) :
  (∃ next, handleClick true true status = Some (Some next)
           ∧ next ≠ status
           ∧ ∃ s2 s3, handleClick true true next = Some (Some s2)
                      ∧ handleClick true true s2 = Some (Some s3)
                      ∧ handleClick true true s3 = Some (Some status))
  ∧ handleClick true true StatusNew = Some (Some StatusInProgress)
  ∧ handleClick true true StatusInProgress = Some (Some StatusReady)
  ∧ handleClick true true StatusReady = Some (Some StatusDelivered)
  ∧ handleClick true true StatusDelivered = Some (Some StatusNew)
  ∧ (∀ editable hasOnChange, editable && hasOnChange = false →
       handleClick editable hasOnChange status = None).
Proof.
  split; [| repeat split].
  - destruct status; eexists; (split; [reflexivity |]);
      (split; [discriminate |]); do 2 eexists; repeat split; reflexivity.
  - intros [] [] H; try discriminate; reflexivity.
Qed.

Lemma badge_click_cycles_witness :
  handleClick false true StatusReady = None.
Proof. apply (badge_click_cycles StatusReady). reflexivity. Defined.

End StatusBadgeFacts.

(** ** More on the list-state controller *)

Module OrdersListMoreFacts.

Import JS OrdersList OrdersListMore Reference ReferenceMore OrdersListFacts.

(** *** Page count *)

Lemma totalPages_bounds (st : OrderListState) :
  0 < page_size (pagination st) →
  ∃ T, totalPages st = Some T
       ∧ (T - 1) * page_size (pagination st) < total (pagination st)
       ∧ total (pagination st) ≤ T * page_size (pagination st).
Proof.
  intros Hps. unfold totalPages.
  destruct (Z.eqb_spec (page_size (pagination st)) 0); [lia |].
  eexists. split; [reflexivity |].
  pose proof (Z.div_mod (- total (pagination st)) (page_size (pagination st)))
    as Hdm.
  pose proof (Z.mod_pos_bound (- total (pagination st))
                (page_size (pagination st)) Hps) as Hb.
  specialize (Hdm ltac:(lia)). split; nia.
Qed.

(** X17.  [totalPages] is undefined exactly when the page size is 0; for a
    positive page size it is the ceiling of [total / page_size]: the least
    [T] with [total <= T * page_size], which is 0 for an empty result. *)
Theorem totalPages_is_ceiling (st : OrderListState) :
  (totalPages st = None ↔ page_size (pagination st) = 0)
  ∧ (0 < page_size (pagination st) →
     ∃ T, totalPages st = Some T
          ∧ (T - 1) * page_size (pagination st) < total (pagination st)
          ∧ total (pagination st) ≤ T * page_size (pagination st)
          ∧ (total (pagination st) = 0 → T = 0)).
Proof.
  unfold totalPages. split.
  - destruct (Z.eqb_spec (page_size (pagination st)) 0); split;
      congruence.
  - intros Hps. fold (totalPages st).
    destruct (totalPages_bounds st Hps) as [T [HT [Hlo Hhi]]].
    exists T. repeat split; try assumption. nia.
Qed.

Lemma totalPages_is_ceiling_witness :
  ∃ T, totalPages Fixtures.state47 = Some T ∧ (T - 1) * 20 < 47 ∧ 47 ≤ T * 20
       ∧ (47 = 0 → T = 0).
Proof.
  apply (totalPages_is_ceiling Fixtures.state47). cbn. lia.
Defined.

(** X18.  The page count the controller derives from a response of
    [mockApiCall] is the number of pages that query serves: for a page size
    of at least 1 and a page number that is not negative, the returned page
    is non-empty exactly for the pages 1 to [totalPages]. *)
Theorem served_pages_match_totalPages (getTime : string → option Z)
    (data : list Order) (f : OrderFilters) (pageArg pageSize T : Z)
    (st : OrderListState) :
  1 ≤ pageSize → 0 ≤ pageArg →
  page_size (pagination st) = pageSize →
  total (pagination st)
  = r_total (MockApi.mockApiCallOn getTime data f pageArg pageSize) →
  totalPages st = Some T →
  r_orders (MockApi.mockApiCallOn getTime data f pageArg pageSize) ≠ []
  ↔ 1 ≤ pageArg ≤ T.
Proof.
  intros Hps Hp Hsize Htotal HT.
  destruct (totalPages_bounds st ltac:(lia)) as [T' [HT' [Hlo Hhi]]].
  rewrite HT in HT'. injection HT' as <-. rewrite Hsize, Htotal in Hlo, Hhi.
  destruct (decide (pageArg = 0)) as [-> | Hp0].
  - rewrite (MockApiMore.page_zero_empty getTime data f pageSize ltac:(lia)).
    split; [congruence | lia].
  - pose proof (MockApiMore.page_length_formula getTime data f pageArg pageSize
                  ltac:(lia) ltac:(lia)) as Hlen.
    rewrite <- length_zero_iff_nil. split; intros H; nia.
Qed.

Lemma served_pages_match_totalPages_witness :
  r_orders (MockApi.mockApiCall MockApi.isoTime noFilters 2 3) ≠ [] ↔ 1 ≤ 2 ≤ 2.
Proof.
  apply (served_pages_match_totalPages MockApi.isoTime MockApi.mockOrders
           noFilters 2 3 2
           (mkState [] false None noFilters (mkPagination 2 3 4)));
    [lia | lia | reflexivity | reflexivity | reflexivity].
Defined.

Section WithApi.

Variable api : ApiService.

(** *** Reloads, continued *)

Lemma loadOrders_split (f : OrderFilters) (p ps : Z) (w : World) :
  loadOrders api f p ps w
  = (response ← loadOrdersBegin api f p ps; loadOrdersResume response) w.
Proof.
  unfold loadOrders, loadOrdersBegin, loadOrdersResume. unfold_cmd.
  reflexivity.
Qed.

(** X20.  [handleRefresh] reloads with the filters, page and page size of
    the current state and ends in the state that reload ends in; its
    "data refreshed" toast is raised as soon as the request is sent,
    whether the request then succeeds or fails (on failure it is followed
    by the error toast). *)
Theorem handleRefresh_reports_success_regardless (state st : OrderListState) :
  store (run (handleRefresh api state) st)
  = store (run (loadOrders api (filters state) (page (pagination state))
                  (page_size (pagination state))) st)
  ∧ log (run (handleRefresh api state) st)
    = ApiGetOrders (filters state) (page (pagination state))
        (page_size (pagination state))
      :: ToastSuccess "Данные обновлены"
      :: match getOrders api (filters state) (page (pagination state))
                 (page_size (pagination state)) with
         | Fulfilled _ => []
         | Rejected => [ToastError "Не удалось загрузить заказы"]
         end.
Proof.
  unfold run. rewrite loadOrders_world.
  unfold handleRefresh, loadOrdersBegin, loadOrdersResume. unfold_cmd.
  destruct (getOrders api _ _ _); split; reflexivity.
Qed.

(** X19.  While a reload is in flight (after [loadOrders] has sent its
    request and before the request settles) the loading flag is up, a
    previous error is gone and the cached records are as before.  Each of
    the four handlers that reload (filters, page, page size, refresh) ends
    with the loading flag down, and with an error recorded in the state
    exactly when the error toast was shown. *)
Theorem reload_raises_and_lowers_loading (state st : OrderListState)
    (criteria : OrderFilters) (n size : Z) :
  store (loadOrdersBegin api criteria n size {| store := st; log := [] |}).2
  = {| orders := orders st; loading := true; error := None;
       filters := filters st; pagination := pagination st |}
  ∧ Forall (λ w, loading (store w) = false
                 ∧ (error (store w) ≠ None
                    ↔ ToastError "Не удалось загрузить заказы" ∈ log w))
      [ run (handleFiltersChange api state criteria) st;
        run (handlePageChange api state n) st;
        run (handlePageSizeChange api state size) st;
        run (handleRefresh api state) st ].
Proof.
  split; [reflexivity |].
  assert (Hload : ∀ f p ps w,
    (∀ msg, ToastError msg ∉ log w) →
    loading (store (loadOrders api f p ps w).2) = false
    ∧ (error (store (loadOrders api f p ps w).2) ≠ None
       ↔ ToastError "Не удалось загрузить заказы" ∈ log (loadOrders api f p ps w).2)).
  { intros f p ps w Hw. rewrite loadOrders_world.
    destruct (getOrders api f p ps); cbn [store log loading error].
    - split; [reflexivity |]. split; [congruence |].
      rewrite elem_of_app, list_elem_of_singleton. intros [H | H]; [| discriminate].
      now apply Hw in H.
    - split; [reflexivity |]. split; [| discriminate].
      intros _. rewrite !elem_of_app, !list_elem_of_singleton. auto. }
  assert (Hnil : ∀ s0 msg, ToastError msg ∉ log {| store := s0; log := [] |})
    by (intros s0 msg; cbn; apply not_elem_of_nil).
  apply Forall_cons; split; [| apply Forall_cons; split;
    [| apply Forall_cons; split; [| apply Forall_cons; split;
      [| apply Forall_nil_2]]]].
  - rewrite handleFiltersChange_world. apply Hload, Hnil.
  - unfold run, handlePageChange. apply Hload, Hnil.
  - unfold run, handlePageSizeChange. apply Hload, Hnil.
  - unfold run, handleRefresh, loadOrdersBegin, loadOrdersResume. unfold_cmd.
    destruct (getOrders api _ _ _); cbn; rewrite !elem_of_cons, elem_of_nil;
      (split; [reflexivity |]); split; try congruence; try discriminate; auto.
    intros [H | [H | []]]; discriminate.
Qed.

(** X21.  When the collaborator echoes the requested page and page size in
    its responses (as [mockApiCall] does), the current page is 1 after
    [handleFiltersChange] whether its reload succeeds or fails, 1 with the
    new page size after a successful [handlePageSizeChange], and [n] after
    a successful [handlePageChange(n)]. *)
Theorem echoing_collaborator_resets_page (state st : OrderListState)
    (criteria : OrderFilters) (size n : Z) :
  (∀ f p ps r, getOrders api f p ps = Fulfilled r →
               r_page r = p ∧ r_page_size r = ps) →
  page (pagination (store (run (handleFiltersChange api state criteria) st))) = 1
  ∧ (∀ r, getOrders api (filters state) 1 size = Fulfilled r →
       pagination (store (run (handlePageSizeChange api state size) st))
       = {| page := 1; page_size := size; total := r_total r |})
  ∧ (∀ r, getOrders api (filters state) n (page_size (pagination state))
          = Fulfilled r →
       page (pagination (store (run (handlePageChange api state n) st))) = n).
Proof.
  intros Hecho. split; [| split].
  - rewrite handleFiltersChange_world, loadOrders_world.
    destruct (getOrders api criteria 1 _) as [r |] eqn:E; cbn; [| reflexivity].
    now destruct (Hecho _ _ _ _ E).
  - intros r E. unfold handlePageSizeChange, run. rewrite loadOrders_world, E.
    cbn. destruct (Hecho _ _ _ _ E) as [-> ->]. reflexivity.
  - intros r E. unfold handlePageChange, run. rewrite loadOrders_world, E.
    cbn. now destruct (Hecho _ _ _ _ E).
Qed.

End WithApi.

Lemma echoing_collaborator_resets_page_witness :
  page (pagination (store (run (handleFiltersChange Fixtures.mockService
                                  Fixtures.statePage3 (priceFilter 10000 20000))
                             Fixtures.statePage3))) = 1.
Proof.
  apply (echoing_collaborator_resets_page Fixtures.mockService Fixtures.statePage3
           Fixtures.statePage3 (priceFilter 10000 20000) 50 2).
  intros f p ps r [= <-]. split; reflexivity.
Defined.

(** *** Status statistics *)

Lemma countOr0_default (stats : gmap string Z) (key : string) :
  countOr0 stats key = default 0 (stats !! key).
Proof.
  unfold countOr0. destruct (stats !! key) as [n |]; [| reflexivity].
  cbn. destruct (truthyNumber n) eqn:E; [reflexivity |].
  unfold truthyNumber in E. apply negb_false_iff, Z.eqb_eq in E. congruence.
Qed.

Lemma countOr0_bump (acc : gmap string Z) (key key' : string) :
  countOr0 (bump acc key) key'
  = countOr0 acc key' + (if decide (key = key') then 1 else 0).
Proof.
  rewrite !countOr0_default. unfold bump.
  fold (countOr0 acc key). rewrite countOr0_default.
  rewrite lookup_insert. case_decide; subst; cbn; lia.
Qed.

Lemma countStatus_cons (s : OrderStatus) (o : Order) (l : list Order) :
  countStatus s (o :: l)
  = (if decide (o_status o = s) then 1 else 0) + countStatus s l.
Proof.
  unfold countStatus. rewrite filter_cons. case_decide; cbn [length]; lia.
Qed.

Lemma statusCounts_from (acc : gmap string Z) (cached : list Order) (s : OrderStatus) :
  countOr0 (foldl (λ acc order, bump acc (statusText (o_status order))) acc cached)
    (statusText s)
  = countOr0 acc (statusText s) + countStatus s cached.
Proof.
  revert acc. induction cached as [| o l IH]; intros acc.
  - unfold countStatus. cbn. lia.
  - cbn [foldl]. rewrite IH, countOr0_bump, countStatus_cons.
    repeat case_decide; try lia.
    + exfalso. eauto using ApiClientFacts.statusText_inj.
    + exfalso. subst. eauto.
Qed.

Lemma countStatus_total (l : list Order) :
  countStatus StatusNew l + countStatus StatusInProgress l
  + countStatus StatusReady l + countStatus StatusDelivered l
  = Z.of_nat (length l).
Proof.
  induction l as [| o l IH]; [reflexivity |].
  rewrite !countStatus_cons. cbn [length].
  destruct (o_status o); repeat case_decide; try congruence; lia.
Qed.

(** X22.  The statistics row shows, for each of the four statuses in
    display order, the number of cached orders with that status, and the
    four numbers add up to the number of cached orders. *)
Theorem getStatusStats_counts (st : OrderListState) :
  getStatusStats st
  = [ (StatusNew, countStatus StatusNew (orders st), "bg-blue-500");
      (StatusInProgress, countStatus StatusInProgress (orders st), "bg-orange-500");
      (StatusReady, countStatus StatusReady (orders st), "bg-green-500");
      (StatusDelivered, countStatus StatusDelivered (orders st), "bg-gray-500") ]
  ∧ foldr Z.add 0 ((λ row, row.1.2) <$> getStatusStats st)
    = Z.of_nat (length (orders st)).
Proof.
  assert (Hrow : ∀ s, countOr0 (statusCounts (orders st)) (statusText s)
                      = countStatus s (orders st)).
  { intros s. unfold statusCounts. rewrite statusCounts_from.
    rewrite countOr0_default, lookup_empty. cbn. lia. }
  assert (Hstats : getStatusStats st
    = [ (StatusNew, countStatus StatusNew (orders st), "bg-blue-500");
        (StatusInProgress, countStatus StatusInProgress (orders st), "bg-orange-500");
        (StatusReady, countStatus StatusReady (orders st), "bg-green-500");
        (StatusDelivered, countStatus StatusDelivered (orders st), "bg-gray-500") ]).
  { unfold getStatusStats.
    rewrite <- (Hrow StatusNew), <- (Hrow StatusInProgress),
      <- (Hrow StatusReady), <- (Hrow StatusDelivered). reflexivity. }
  split; [exact Hstats |]. rewrite Hstats. cbn.
  pose proof (countStatus_total (orders st)). lia.
Qed.

(** *** Edits, continued *)

Section Edits.

Variable api : ApiService.
Variable users : list User.

Lemma handleStatusChange_store (orderId : Z) (s : OrderStatus) (w : World) :
  store (handleStatusChange api orderId s w).2
  = match updateOrderStatus api orderId s with
    | Fulfilled _ => editOrders orderId (λ o, withStatus o s) (store w)
    | Rejected => store w
    end.
Proof.
  unfold handleStatusChange. unfold_cmd.
  destruct (updateOrderStatus api orderId s); reflexivity.
Qed.

Lemma handleExecutorChange_store (orderId : Z) (e : option Z) (w : World) :
  store (handleExecutorChange api users orderId e w).2
  = match updateOrderExecutor api orderId e with
    | Fulfilled _ =>
        editOrders orderId (λ o, withExecutor o e (executorOf users e)) (store w)
    | Rejected => store w
    end.
Proof.
  unfold handleExecutorChange. unfold_cmd.
  destruct (updateOrderExecutor api orderId e); reflexivity.
Qed.

Lemma run_seq (c1 c2 : Cmd unit) (st : OrderListState) :
  run (c1;; c2) st = (c2 (c1 {| store := st; log := [] |}).2).2.
Proof.
  unfold run, mbind, Cmd_bind.
  destruct (c1 {| store := st; log := [] |}). reflexivity.
Qed.

Lemma editOrders_commute (a b : Z) (g h : Order → Order) (st : OrderListState) :
  (∀ o, o_id (g o) = o_id o) → (∀ o, o_id (h o) = o_id o) →
  (∀ o, o_id o = a → o_id o = b → g (h o) = h (g o)) →
  editOrders a g (editOrders b h st) = editOrders b h (editOrders a g st).
Proof.
  intros Hg Hh Hgh. unfold editOrders. cbn [orders loading error filters pagination].
  f_equal. rewrite <- !list_fmap_compose. apply list_fmap_ext.
  intros i o _. cbn.
  destruct (Z.eqb_spec (o_id o) a) as [Ha | Ha],
           (Z.eqb_spec (o_id o) b) as [Hb | Hb];
    rewrite ?Hg, ?Hh;
    repeat match goal with
           | |- context [?x =? ?y] => destruct (Z.eqb_spec x y); try congruence
           end; auto.
Qed.

(** X23.  Edits of cached records do not depend on their order: two
    status changes, or two executor changes, of orders with different ids
    leave the same state whichever runs first, and so do a status change
    and an executor change of any two orders, the same one included. *)
Theorem edits_commute (st : OrderListState) (a b : Z) (sa sb : OrderStatus)
    (ea eb : option Z) :
  (a ≠ b →
     store (run (handleStatusChange api a sa;; handleStatusChange api b sb) st)
     = store (run (handleStatusChange api b sb;; handleStatusChange api a sa) st))
  ∧ (a ≠ b →
     store (run (handleExecutorChange api users a ea;;
                 handleExecutorChange api users b eb) st)
     = store (run (handleExecutorChange api users b eb;;
                   handleExecutorChange api users a ea) st))
  ∧ store (run (handleStatusChange api a sa;;
                handleExecutorChange api users b eb) st)
    = store (run (handleExecutorChange api users b eb;;
                  handleStatusChange api a sa) st).
Proof.
  rewrite !run_seq.
  repeat first [rewrite handleStatusChange_store
               | rewrite handleExecutorChange_store].
  cbn [store].
  destruct (updateOrderStatus api a sa), (updateOrderStatus api b sb),
    (updateOrderExecutor api a ea), (updateOrderExecutor api b eb).
  all: repeat split; try reflexivity; intros;
    apply editOrders_commute; intros; try reflexivity; congruence.
Qed.

(** X24.  An edit of an order that is not among the cached records leaves
    the whole controller state as it was, whether the update request
    succeeds or fails. *)
Theorem edit_of_uncached_order_keeps_state (st : OrderListState) (orderId : Z)
    (s : OrderStatus) (e : option Z) :
  (∀ o, o ∈ orders st → o_id o ≠ orderId) →
  store (run (handleStatusChange api orderId s) st) = st
  ∧ store (run (handleExecutorChange api users orderId e) st) = st.
Proof.
  intros Hnone.
  assert (Hid : ∀ edit, editOrders orderId edit st = st).
  { intros edit. unfold editOrders. destruct st as [os ld er fl pg]. cbn in *.
    f_equal. rewrite <- (list_fmap_id os) at 2. apply list_fmap_ext.
    intros i o Ho. apply list_elem_of_lookup_2 in Ho.
    destruct (Z.eqb_spec (o_id o) orderId) as [E | E]; [| reflexivity].
    now apply Hnone in E. }
  unfold run. rewrite handleStatusChange_store, handleExecutorChange_store.
  cbn [store]. split.
  - destruct (updateOrderStatus api orderId s); [apply Hid | reflexivity].
  - destruct (updateOrderExecutor api orderId e); [apply Hid | reflexivity].
Qed.


Lemma find_Some {A} (p : A → bool) (l : list A) (x : A) :
  JS.find p l = Some x → x ∈ l ∧ p x = true.
Proof.
  induction l as [| y l IH]; cbn; [discriminate |].
  destruct (p y) eqn:E.
  - intros [= <-]. split; [apply list_elem_of_here | exact E].
  - intros H. destruct (IH H) as [Hin Hp].
    split; [now apply list_elem_of_further | exact Hp].
Qed.

(** The executor looked up for an id is a loaded user with that id. *)
Lemma executorOf_Some (e : option Z) (u : User) :
  executorOf users e = Some u → u ∈ users ∧ e = Some (u_id u).
Proof.
  unfold executorOf. destruct e as [uid |]; cbn; [| discriminate].
  destruct (truthyNumber uid); [| discriminate].
  intros H. apply find_Some in H as [Hin Hp].
  apply Z.eqb_eq in Hp. split; [exact Hin | congruence].
Qed.

(** X26.  The edits keep the executor reference of every cached record
    consistent: if each record's joined executor, when present, is the user
    its [executor_id] names, this still holds after [handleExecutorChange]
    and after [handleStatusChange]; the executor joined in is one of the
    loaded users. *)
Theorem edits_keep_executor_consistent (st : OrderListState) (orderId : Z)
    (s : OrderStatus) (e : option Z) :
  Forall executorConsistent (orders st) →
  Forall executorConsistent
    (orders (store (run (handleExecutorChange api users orderId e) st)))
  ∧ Forall executorConsistent
      (orders (store (run (handleStatusChange api orderId s) st)))
  ∧ (∀ u, executorOf users e = Some u → u ∈ users).
Proof.
  intros Hc.
  assert (Hedit : ∀ edit, (∀ o, executorConsistent o → executorConsistent (edit o)) →
            Forall executorConsistent (orders (editOrders orderId edit st))).
  { intros edit Hpres. unfold editOrders. cbn [orders].
    apply Forall_fmap. eapply Forall_impl; [exact Hc |].
    intros o Ho. cbn. destruct (o_id o =? orderId); [now apply Hpres | exact Ho]. }
  unfold run. rewrite handleStatusChange_store, handleExecutorChange_store.
  cbn [store]. split; [| split].
  - destruct (updateOrderExecutor api orderId e); [| exact Hc].
    apply Hedit. intros o _ u Hu. cbn in *. now apply executorOf_Some in Hu.
  - destruct (updateOrderStatus api orderId s); [| exact Hc].
    apply Hedit. intros o Ho u Hu. cbn in *. now apply Ho.
  - intros u Hu. now apply executorOf_Some in Hu.
Qed.

End Edits.

Lemma edits_commute_witness :
  store (run (handleStatusChange Fixtures.mockService 1 StatusReady;;
              handleStatusChange Fixtures.mockService 2 StatusDelivered)
           Fixtures.stateNew)
  = store (run (handleStatusChange Fixtures.mockService 2 StatusDelivered;;
                handleStatusChange Fixtures.mockService 1 StatusReady)
             Fixtures.stateNew).
Proof.
  apply (edits_commute Fixtures.mockService MockApi.mockUsers Fixtures.stateNew
           1 2 StatusReady StatusDelivered None None).
  lia.
Defined.

Lemma edit_of_uncached_order_keeps_state_witness :
  store (run (handleStatusChange Fixtures.mockService 4 StatusReady)
           (mkState [Fixtures.freeOrder] false None noFilters (mkPagination 1 20 1)))
  = mkState [Fixtures.freeOrder] false None noFilters (mkPagination 1 20 1).
Proof.
  apply (edit_of_uncached_order_keeps_state Fixtures.mockService MockApi.mockUsers
           (mkState [Fixtures.freeOrder] false None noFilters (mkPagination 1 20 1))
           4 StatusReady None).
  intros o Ho. apply list_elem_of_singleton in Ho. subst o. cbn. lia.
Defined.


Lemma edits_keep_executor_consistent_witness :
  Forall executorConsistent
    (orders (store (run (handleExecutorChange Fixtures.mockService MockApi.mockUsers
                           2 (Some 3)) Fixtures.state47))).
Proof.
  apply (edits_keep_executor_consistent Fixtures.mockService MockApi.mockUsers
           Fixtures.state47 2 StatusNew (Some 3)).
  repeat constructor; intros u [= <-]; reflexivity.
Defined.

End OrdersListMoreFacts.
